(** * Tool registry of the composite demo: registration and dispatch

    A shallow embedding of [composite_demo/src/tools/tool_registry.py]
    (with the [ToolObservation] record of [interface.py]) and the proofs
    of its specified properties.

    Python [str] values are modelled by [string]: every [ascii] stands
    for one code point below 256.  Library functions whose code is not
    part of the module ([json.loads], [traceback.format_exc], the three
    predefined tool handlers) are parameters of the development. *)

From Stdlib Require Import Ascii String List Bool Arith ZArith Lia DecimalString.
From stdpp Require Import base option list strings gmap.

Local Open Scope string_scope.
Local Open Scope list_scope.

(** ** Python string methods used by the module *)

Module PyStr.

(** [str.isspace] on one code point below 256: the ASCII controls
    9..13 and 28..31, the space, NEL (133) and the no-break space (160). *)
Definition isspace (c : ascii) : bool :=
  let n := nat_of_ascii c in
  (((9 <=? n) && (n <=? 13)) || ((28 <=? n) && (n <=? 32))
   || (n =? 133) || (n =? 160))%nat.

(** Membership of a character in the argument of [rstrip(chars)]. *)
Fixpoint mem (c : ascii) (chars : string) : bool :=
  match chars with
  | EmptyString => false
  | String d rest => Ascii.eqb c d || mem c rest
  end.

(** Drop the leading characters that satisfy [p]. *)
Fixpoint lstrip_with (p : ascii -> bool) (s : string) : string :=
  match s with
  | EmptyString => EmptyString
  | String c rest => if p c then lstrip_with p rest else s
  end.

(** Drop the trailing characters that satisfy [p]. *)
Fixpoint rstrip_with (p : ascii -> bool) (s : string) : string :=
  match s with
  | EmptyString => EmptyString
  | String c rest =>
      match rstrip_with p rest with
      | EmptyString => if p c then EmptyString else String c EmptyString
      | r => String c r
      end
  end.

(** [s.strip()] *)
Definition strip (s : string) : string :=
  lstrip_with isspace (rstrip_with isspace s).

(** [s.rstrip(chars)]: [chars] is a set of characters, not a suffix. *)
Definition rstrip (s chars : string) : string :=
  rstrip_with (fun c => mem c chars) s.

(** Every character of [s] satisfies [p]. *)
Fixpoint all_chars (p : ascii -> bool) (s : string) : bool :=
  match s with
  | EmptyString => true
  | String c rest => p c && all_chars p rest
  end.

(** The last character of [s], if any. *)
Fixpoint last_char (s : string) : option ascii :=
  match s with
  | EmptyString => None
  | String c EmptyString => Some c
  | String _ rest => last_char rest
  end.

(** [s] does not end with a character satisfying [p]. *)
Definition ends_clean (p : ascii -> bool) (s : string) : bool :=
  match last_char s with
  | Some c => negb (p c)
  | None => true
  end.

End PyStr.

(** ** Exceptions and results *)

(** The exception classes the module meets.  The last three derive from
    [BaseException] only; every other class derives from [Exception]. *)
Inductive exc_class :=
| TypeError
| ValueError
| AttributeError
| JSONDecodeError
| OtherException (name : string)
| SystemExit
| KeyboardInterrupt
| GeneratorExit.

(** An exception object: its class and [str(e)]. *)
Record exception := Exc { exc_type : exc_class; exc_str : string }.

(** [issubclass(c, Exception)] *)
Definition issubclass_Exception (c : exc_class) : bool :=
  match c with
  | SystemExit | KeyboardInterrupt | GeneratorExit => false
  | _ => true
  end.

(** [issubclass(c, json.JSONDecodeError)] *)
Definition issubclass_JSONDecodeError (c : exc_class) : bool :=
  match c with
  | JSONDecodeError => true
  | _ => false
  end.

(** Outcome of a call: a returned value or a raised exception. *)
Inductive result (A : Type) :=
| Return (a : A)
| Raise (e : exception).
Arguments Return {A} a.
Arguments Raise {A} e.

(** ** Values and objects *)

Abbreviation loc := nat.

(** A Python value: an immutable scalar, or a reference to an object of
    the store. *)
Inductive value :=
| VNone
| VBool (b : bool)
| VInt (n : Z)
| VStr (s : string)
| VRef (l : loc).

(** A mutable container of the store.  A [dict] keeps its items in
    insertion order; the keys met here are strings. *)
Inductive object :=
| List (items : list value)
| Dict (items : list (string * value)).

(** The result of [json.loads]. *)
#[local] Unset Elimination Schemes.
Inductive json :=
| JNull
| JBool (b : bool)
| JInt (n : Z)
| JFloat (literal : string)
| JString (s : string)
| JArray (items : list json)
| JObject (items : list (string * json)).
#[local] Set Elimination Schemes.

(** [type(x).__name__] for a decoded JSON value. *)
Definition json_type_name (x : json) : string :=
  match x with
  | JNull => "NoneType"
  | JBool _ => "bool"
  | JInt _ => "int"
  | JFloat _ => "float"
  | JString _ => "str"
  | JArray _ => "list"
  | JObject _ => "dict"
  end.

(** [interface.ToolObservation] *)
Record ToolObservation := MkToolObservation {
  content_type : string;
  text : string;
  image_url : option string;
  role_metadata : option string;
  metadata : option json
}.

(** [ToolObservation(content_type, text)]: the other fields default to
    [None]. *)
Definition new_ToolObservation (content_type text : string) : ToolObservation :=
  MkToolObservation content_type text None None None.

(** ** What the module imports *)

(** The surroundings of the module: the state of everything a tool can
    touch (network, processes, tool sessions), the library functions and
    the three predefined tool handlers, each called as
    [tool_call(code, session_id)]. *)
Class Imports := {
  World : Type;
  json_loads : string -> result json;
  format_exc : exception -> string;
  browser : string -> string -> World -> World * result (list ToolObservation);
  cogview : string -> string -> World -> World * result (list ToolObservation);
  python : string -> string -> World -> World * result (list ToolObservation)
}.

(** ** Capabilities and their annotations *)

(** What [register_tool] reads from the first part of an annotation:
    a class (an object with [__name__]), a [types.GenericAlias] such as
    [tuple[int, int]] (with its [str]), or an object of class [cls] that
    is neither, such as a forward reference. *)
Inductive pytype :=
| Class_ (name : string)
| GenericAlias (shown : string)
| Nameless (cls : string).

(** [param.annotation]: absent, not a [typing.Annotated] form, or
    [Annotated[origin, *metadata]]. *)
Inductive annotation :=
| Parameter_empty
| Plain (t : pytype)
| Annotated (origin : pytype) (metadata : list value).

(** A callable handed to [register_tool]: [func.__name__],
    [inspect.getdoc(func)], the items of
    [inspect.signature(func).parameters] in declaration order, and the
    call of [func] with keyword arguments followed by [str] (the text
    of the returned value, or the exception raised by binding the
    arguments, by the body or by the conversion). *)
Record capability `{Imports} := {
  __name__ : string;
  getdoc : option string;
  parameters : list (string * annotation);
  call : list (string * json) -> World -> World * result string
}.

(** ** The module state *)

(** [_TOOL_HOOKS], and the store of list and dict objects: the list
    bound to [_TOOL_DESCRIPTIONS] at import time with everything it
    refers to, the objects a registration creates, and the copies that
    [get_tools] hands out. *)
Record registry `{Imports} := {
  _TOOL_HOOKS : gmap string capability;
  store : list object
}.

(** The location of the list bound to [_TOOL_DESCRIPTIONS]. *)
Definition _TOOL_DESCRIPTIONS : loc := 0.

(** The state when the two module-level assignments have run. *)
Definition empty_registry `{Imports} : registry :=
  {| _TOOL_HOOKS := ∅; store := [List []] |}.

(** *** Store operations *)

(** Create an object; its location is the next free one. *)
Definition alloc (o : object) (h : list object) : list object * loc :=
  (h ++ [o], length h).

(** [lst.append(x)] for the list at [l]. *)
Definition list_append (l : loc) (x : value) (h : list object) : list object :=
  match h !! l with
  | Some (List items) => <[l := List (items ++ [x])]> h
  | _ => h
  end.

(** [d[k] = x] on the items of a dict: an existing key keeps its place. *)
Fixpoint dict_set (k : string) (x : value) (items : list (string * value))
  : list (string * value) :=
  match items with
  | [] => [(k, x)]
  | (k', x') :: rest =>
      if String.eqb k k' then (k, x) :: rest else (k', x') :: dict_set k x rest
  end.

(** [d[k] = x] for the dict at [l]. *)
Definition dict_setitem (l : loc) (k : string) (x : value) (h : list object)
  : list object :=
  match h !! l with
  | Some (Dict items) => <[l := Dict (dict_set k x items)]> h
  | _ => h
  end.

(** ** [register_tool] *)

(** [str(typ) if isinstance(typ, GenericAlias) else typ.__name__] *)
Definition type_label (typ : pytype) : result string :=
  match typ with
  | GenericAlias shown => Return shown
  | Class_ name => Return name
  | Nameless cls =>
      Raise (Exc AttributeError
               ("'" +:+ cls +:+ "' object has no attribute '__name__'"))
  end.

(** The error of unpacking [n] metadata items into
    [(description, required)] (CPython wording). *)
Definition unpack_error (n : nat) : exception :=
  Exc ValueError
    (match n with
     | 0 => "not enough values to unpack (expected 2, got 0)"
     | 1 => "not enough values to unpack (expected 2, got 1)"
     | _ => "too many values to unpack (expected 2)"
     end).

(** One turn of the loop over the parameters, up to the dict that is
    appended to [tool_params]. *)
Definition param_entry (name : string) (param : annotation) : result object :=
  match param with
  | Parameter_empty =>
      Raise (Exc TypeError ("Parameter `" +:+ name +:+ "` missing type annotation"))
  | Plain _ =>
      Raise (Exc TypeError
               ("Annotation type for `" +:+ name +:+ "` must be typing.Annotated"))
  | Annotated typ [description; required] =>
      match type_label typ with
      | Raise e => Raise e
      | Return typ =>
          match description with
          | VStr _ =>
              match required with
              | VBool _ =>
                  Return (Dict [("name", VStr name);
                                ("description", description);
                                ("type", VStr typ);
                                ("required", required)])
              | _ =>
                  Raise (Exc TypeError
                           ("Required for `" +:+ name +:+ "` must be a bool"))
              end
          | _ =>
              Raise (Exc TypeError
                       ("Description for `" +:+ name +:+ "` must be a string"))
          end
      end
  | Annotated _ metadata => Raise (unpack_error (length metadata))
  end.

(** The loop [for name, param in python_params.items()]; [tool_params]
    is the location of the list being filled. *)
Fixpoint params_loop (tool_params : loc) (items : list (string * annotation))
    (h : list object) : list object * result unit :=
  match items with
  | [] => (h, Return tt)
  | (name, param) :: rest =>
      match param_entry name param with
      | Raise e => (h, Raise e)
      | Return d =>
          let '(h1, l) := alloc d h in
          params_loop tool_params rest (list_append tool_params (VRef l) h1)
      end
  end.

Definition register_tool `{Imports} (func : capability) (st : registry)
  : registry * result capability :=
  let tool_name := __name__ func in
  match getdoc func with
  | None =>
      (st, Raise (Exc AttributeError "'NoneType' object has no attribute 'strip'"))
  | Some doc =>
      let tool_description := PyStr.strip doc in
      let '(h1, tool_params) := alloc (List []) (store st) in
      match params_loop tool_params (parameters func) h1 with
      | (h2, Raise e) => ({| _TOOL_HOOKS := _TOOL_HOOKS st; store := h2 |}, Raise e)
      | (h2, Return _) =>
          let '(h3, tool_def) :=
            alloc (Dict [("name", VStr tool_name);
                         ("description", VStr tool_description);
                         ("params", VRef tool_params)]) h2 in
          ({| _TOOL_HOOKS := <[tool_name := func]> (_TOOL_HOOKS st);
              store := list_append _TOOL_DESCRIPTIONS (VRef tool_def) h3 |},
           Return func)
      end
  end.

(** Register the capabilities of a list in turn, stopping at the first
    exception (registration runs while the module is imported). *)
Fixpoint register_all `{Imports} (funcs : list capability) (st : registry)
  : registry * result unit :=
  match funcs with
  | [] => (st, Return tt)
  | func :: rest =>
      match register_tool func st with
      | (st', Raise e) => (st', Raise e)
      | (st', Return _) => register_all rest st'
      end
  end.

(** ** [dispatch_tool] *)

Definition ALL_TOOLS `{Imports}
  : gmap string (string -> string -> World -> World * result (list ToolObservation)) :=
  {[ "simple_browser" := browser; "python" := python; "cogview" := cogview ]}.

(** The call-boundary marker whose characters are stripped. *)
Definition marker : string := "<|observation|>".

(** The characters of the marker, each once. *)
Definition marker_chars : list ascii :=
  ["<"; "|"; "o"; "b"; "s"; "e"; "r"; "v"; "a"; "t"; "i"; "n"; ">"]%char.

Definition in_marker (c : ascii) : bool := bool_decide (c ∈ marker_chars).

(** A JSON object text, with or without white space around it, ends
    with its closing brace. *)
Definition ends_with_brace (code : string) : Prop :=
  PyStr.last_char (PyStr.strip code) = Some "}"%char.

(** [code.strip().rstrip('<|observation|>').strip()] *)
Definition clean (code : string) : string :=
  PyStr.strip (PyStr.rstrip (PyStr.strip code) marker).

(** The call of [tool_hook] with [tool_params] unpacked as keyword
    arguments, followed by [str]: unpacking anything but a dict is a
    [TypeError] (CPython wording). *)
Definition call_kw `{Imports} (tool_hook : capability) (tool_params : json)
    (w : World) : World * result string :=
  match tool_params with
  | JObject kwargs => call tool_hook kwargs w
  | other =>
      (w, Raise (Exc TypeError
                   (__name__ tool_hook +:+ "() argument after ** must be a mapping, not "
                    +:+ json_type_name other)))
  end.

(** The part of [dispatch_tool] that serves a custom tool, from the
    [try] around [json.loads] on; [code] is the cleaned payload. *)
Definition dispatch_custom `{Imports} (st : registry) (tool_name code : string)
    (w : World) : World * result (list ToolObservation) :=
  match json_loads code with
  | Raise e =>
      if issubclass_JSONDecodeError (exc_type e) then
        let err := "Error decoding JSON: " +:+ exc_str e in
        (w, Return [new_ToolObservation "system_error" err])
      else (w, Raise e)
  | Return tool_params =>
      match _TOOL_HOOKS st !! tool_name with
      | None =>
          let err := "Tool `" +:+ tool_name
                     +:+ "` not found. Please use a provided tool." in
          (w, Return [new_ToolObservation "system_error" err])
      | Some tool_hook =>
          match call_kw tool_hook tool_params w with
          | (w', Return ret) => (w', Return [new_ToolObservation tool_name ret])
          | (w', Raise e) =>
              if issubclass_Exception (exc_type e) then
                let err := format_exc e in
                (w', Return [new_ToolObservation "system_error" err])
              else (w', Raise e)
          end
      end
  end.

Definition dispatch_tool `{Imports} (st : registry)
    (tool_name code session_id : string) (w : World)
  : World * result (list ToolObservation) :=
  match ALL_TOOLS !! tool_name with
  | Some handler => handler code session_id w
  | None => dispatch_custom st tool_name (clean code) w
  end.

(** ** [get_tools] and [copy.deepcopy] *)

(** [copy.deepcopy(x, memo)] on the store.  An immutable value is its
    own copy.  A list or dict met for the first time gets a new empty
    object [y], recorded in [memo] before its items are copied into it
    in turn; an object met again is replaced by its recorded copy.  The
    first argument bounds the depth of the recursion. *)
Fixpoint copy_list_items
    (rec : value -> list object * gmap nat nat -> option (value * (list object * gmap nat nat)))
    (y : loc) (items : list value) (s : list object * gmap nat nat)
  : option (list object * gmap nat nat) :=
  match items with
  | [] => Some s
  | a :: rest =>
      match rec a s with
      | Some (a', (h, memo)) => copy_list_items rec y rest (list_append y a' h, memo)
      | None => None
      end
  end.

Fixpoint copy_dict_items
    (rec : value -> list object * gmap nat nat -> option (value * (list object * gmap nat nat)))
    (y : loc) (items : list (string * value)) (s : list object * gmap nat nat)
  : option (list object * gmap nat nat) :=
  match items with
  | [] => Some s
  | (key, a) :: rest =>
      match rec a s with
      | Some (a', (h, memo)) => copy_dict_items rec y rest (dict_setitem y key a' h, memo)
      | None => None
      end
  end.

Fixpoint deepcopy (depth : nat) (x : value) (s : list object * gmap nat nat)
  : option (value * (list object * gmap nat nat)) :=
  match x with
  | VRef l =>
      match s.2 !! l with
      | Some y => Some (VRef y, s)
      | None =>
          match depth with
          | 0 => None
          | S depth' =>
              match s.1 !! l with
              | Some (List items) =>
                  let '(h, y) := alloc (List []) s.1 in
                  match copy_list_items (deepcopy depth') y items (h, <[l := y]> s.2) with
                  | Some s' => Some (VRef y, s')
                  | None => None
                  end
              | Some (Dict items) =>
                  let '(h, y) := alloc (Dict []) s.1 in
                  match copy_dict_items (deepcopy depth') y items (h, <[l := y]> s.2) with
                  | Some s' => Some (VRef y, s')
                  | None => None
                  end
              | None => None
              end
          end
      end
  | _ => Some (x, s)
  end.

(** [copy.deepcopy(_TOOL_DESCRIPTIONS)]: every level of the recursion
    copies an object not met before, so the number of objects bounds
    its depth. *)
Definition get_tools `{Imports} (st : registry) : option (value * registry) :=
  match deepcopy (S (length (store st))) (VRef _TOOL_DESCRIPTIONS) (store st, ∅) with
  | Some (tools, (h, _)) => Some (tools, {| _TOOL_HOOKS := _TOOL_HOOKS st; store := h |})
  | None => None
  end.

(** ** Reading descriptors off the store *)

Record param_descriptor := {
  param_name : string;
  param_description : string;
  param_type : string;
  param_required : bool
}.

Record tool_descriptor := {
  tool_name : string;
  tool_description : string;
  tool_params : list param_descriptor
}.

(** The dict that [register_tool] builds for one parameter. *)
Definition param_object (p : param_descriptor) : object :=
  Dict [("name", VStr (param_name p));
        ("description", VStr (param_description p));
        ("type", VStr (param_type p));
        ("required", VBool (param_required p))].

(** The [tool_def] dict, its parameter list being at [params]. *)
Definition tool_object (t : tool_descriptor) (params : loc) : object :=
  Dict [("name", VStr (tool_name t));
        ("description", VStr (tool_description t));
        ("params", VRef params)].

#[global] Instance value_eq_dec : EqDecision value.
Proof. solve_decision. Defined.

#[global] Instance object_eq_dec : EqDecision object.
Proof. solve_decision. Defined.

(** The value [x] refers to a parameter dict with exactly the four
    items of the descriptor. *)
Definition read_param (h : list object) (x : value) : option param_descriptor :=
  match x with
  | VRef l =>
      match h !! l with
      | Some (Dict [(_, VStr n); (_, VStr d); (_, VStr t); (_, VBool r)] as o) =>
          let p := {| param_name := n; param_description := d;
                      param_type := t; param_required := r |} in
          if decide (o = param_object p) then Some p else None
      | _ => None
      end
  | _ => None
  end.

(** The value [x] refers to a list. *)
Definition read_list (h : list object) (x : value) : option (list value) :=
  match x with
  | VRef l => match h !! l with Some (List items) => Some items | _ => None end
  | _ => None
  end.

(** The value [x] refers to a tool dict with exactly the three items of
    the descriptor, the last being a list of parameter dicts. *)
Definition read_tool (h : list object) (x : value) : option tool_descriptor :=
  match x with
  | VRef l =>
      match h !! l with
      | Some (Dict [(_, VStr n); (_, VStr d); (_, VRef ps)] as o) =>
          match read_list h (VRef ps) with
          | Some items =>
              match mapM (read_param h) items with
              | Some params =>
                  let t := {| tool_name := n; tool_description := d;
                              tool_params := params |} in
                  if decide (o = tool_object t ps) then Some t else None
              | None => None
              end
          | None => None
          end
      | _ => None
      end
  | _ => None
  end.

(** The value [x] refers to a list of tool dicts. *)
Definition read_tools (h : list object) (x : value) : option (list tool_descriptor) :=
  match read_list h x with
  | Some items => mapM (read_tool h) items
  | None => None
  end.

(** The descriptors held by [_TOOL_DESCRIPTIONS]. *)
Definition descriptions `{Imports} (st : registry) : option (list tool_descriptor) :=
  read_tools (store st) (VRef _TOOL_DESCRIPTIONS).

(** The descriptor that a capability with documentation and well-formed
    annotations is registered under. *)
Definition param_descriptor_of (item : string * annotation) : option param_descriptor :=
  match item with
  | (name, Annotated typ [VStr description; VBool required]) =>
      match type_label typ with
      | Return typ =>
          Some {| param_name := name; param_description := description;
                  param_type := typ; param_required := required |}
      | Raise _ => None
      end
  | _ => None
  end.

Definition descriptor_of `{Imports} (func : capability) : option tool_descriptor :=
  match getdoc func, mapM param_descriptor_of (parameters func) with
  | Some doc, Some params =>
      Some {| tool_name := __name__ func; tool_description := PyStr.strip doc;
              tool_params := params |}
  | _, _ => None
  end.

(** ** A caller working on the value returned by [get_tools] *)

(** One subscript: [x[i]] on a list, [x[k]] on a dict. *)
Inductive selector :=
| Index (i : nat)
| Key (k : string).

Fixpoint dict_get (k : string) (items : list (string * value)) : option value :=
  match items with
  | [] => None
  | (k', x) :: rest => if String.eqb k k' then Some x else dict_get k rest
  end.

Definition select (o : object) (s : selector) : option value :=
  match o, s with
  | List items, Index i => items !! i
  | Dict items, Key k => dict_get k items
  | _, _ => None
  end.

(** The value of [tools[s1][s2]...] for the subscripts of [path]. *)
Fixpoint resolve (h : list object) (x : value) (path : list selector) : option value :=
  match path with
  | [] => Some x
  | s :: path' =>
      match x with
      | VRef l =>
          match h !! l with
          | Some o =>
              match select o s with
              | Some x' => resolve h x' path'
              | None => None
              end
          | None => None
          end
      | _ => None
      end
  end.

(** What the caller can store: a scalar constant, a value found under
    the returned value, or a new empty list or dict. *)
Inductive operand :=
| Const (x : value)
| At (path : list selector)
| NewList
| NewDict.

Definition is_scalar (x : value) : bool :=
  match x with
  | VRef _ => false
  | _ => true
  end.

Definition eval_operand (tools : value) (a : operand) (h : list object)
  : option (value * list object) :=
  match a with
  | Const x => if is_scalar x then Some (x, h) else None
  | At path =>
      match resolve h tools path with
      | Some x => Some (x, h)
      | None => None
      end
  | NewList => let '(h', l) := alloc (List []) h in Some (VRef l, h')
  | NewDict => let '(h', l) := alloc (Dict []) h in Some (VRef l, h')
  end.

(** The mutating statements on the object found at [target]:
    [target.append(a)], [target[s] = a], [del target[s]] and
    [target.clear()]. *)
Inductive statement :=
| Append (target : list selector) (a : operand)
| SetItem (target : list selector) (s : selector) (a : operand)
| DelItem (target : list selector) (s : selector)
| Clear (target : list selector).

Definition dict_del (k : string) (items : list (string * value))
  : list (string * value) :=
  filter (fun kv => negb (String.eqb k kv.1)) items.

(** The new contents of the object, or [None] when the statement raises
    ([IndexError], [KeyError], [TypeError], [AttributeError]). *)
Definition updated (o : object) (c : statement) (x : value) : option object :=
  match c, o with
  | Append _ _, List items => Some (List (items ++ [x]))
  | SetItem _ (Index i) _, List items =>
      if decide (i < length items) then Some (List (<[i := x]> items)) else None
  | SetItem _ (Key k) _, Dict items => Some (Dict (dict_set k x items))
  | DelItem _ (Index i), List items =>
      if decide (i < length items) then Some (List (delete i items)) else None
  | DelItem _ (Key k), Dict items =>
      match dict_get k items with
      | Some _ => Some (Dict (dict_del k items))
      | None => None
      end
  | Clear _, List _ => Some (List [])
  | Clear _, Dict _ => Some (Dict [])
  | _, _ => None
  end.

Definition target_of (c : statement) : list selector :=
  match c with
  | Append t _ | SetItem t _ _ | DelItem t _ | Clear t => t
  end.

Definition operand_of (c : statement) : operand :=
  match c with
  | Append _ a | SetItem _ _ a => a
  | DelItem _ _ | Clear _ => Const VNone
  end.

(** Run one statement of the caller, who holds [tools]; a statement
    that raises leaves the store as it is. *)
Definition exec (tools : value) (c : statement) (h : list object) : list object :=
  match resolve h tools (target_of c), eval_operand tools (operand_of c) h with
  | Some (VRef l), Some (x, h') =>
      match h' !! l with
      | Some o =>
          match updated o c x with
          | Some o' => <[l := o']> h'
          | None => h
          end
      | None => h
      end
  | _, _ => h
  end.

Definition run (tools : value) (prog : list statement) (h : list object) : list object :=
  foldl (fun h c => exec tools c h) h prog.

(** ** Registry states and their layout in the store *)

(** The states that the module gets into: by registrations, whether
    they return or raise, and by calls of [get_tools] whose caller runs
    statements on the returned value. *)
Inductive reachable `{Imports} : registry -> Prop :=
| reachable_empty : reachable empty_registry
| reachable_register func st : reachable st -> reachable (register_tool func st).1
| reachable_get_tools st tools st1 prog :
    reachable st -> get_tools st = Some (tools, st1) ->
    reachable {| _TOOL_HOOKS := _TOOL_HOOKS st1;
                 store := run tools prog (store st1) |}.

(** Where the objects of one descriptor are: the tool dict, its
    parameter list and the parameter dicts. *)
Record tool_layout := {
  at_dict : loc;
  at_params : loc;
  at_items : list loc
}.

Definition footprint (tl : tool_layout) : list loc :=
  at_dict tl :: at_params tl :: at_items tl.

(** The store holds descriptor [t] at the places of [tl]. *)
Definition holds_tool (h : list object) (tl : tool_layout) (t : tool_descriptor) : Prop :=
  h !! at_dict tl = Some (tool_object t (at_params tl))
  /\ h !! at_params tl = Some (List (VRef <$> at_items tl))
  /\ Forall2 (fun l p => h !! l = Some (param_object p)) (at_items tl) (tool_params t).

(** The list at [root] holds the descriptors [ts] at the places of
    [tls], no object being used twice. *)
Definition holds_tools (h : list object) (root : loc) (tls : list tool_layout)
    (ts : list tool_descriptor) : Prop :=
  h !! root = Some (List ((fun tl => VRef (at_dict tl)) <$> tls))
  /\ Forall2 (holds_tool h) tls ts
  /\ NoDup (root :: mjoin (footprint <$> tls)).

(** The layout of the descriptor that a registration adds to a store
    of [n] objects. *)
Definition new_layout (n : nat) (t : tool_descriptor) : tool_layout :=
  {| at_dict := n + 1 + length (tool_params t);
     at_params := n;
     at_items := seq (n + 1) (length (tool_params t)) |}.

(** The objects of the copy of one descriptor, made in a store of [n]
    objects: the dict, the parameter list, the parameter dicts. *)
Definition copy_objects (n : nat) (t : tool_descriptor) : list object :=
  tool_object t (S n)
  :: List (VRef <$> seq (n + 2) (length (tool_params t)))
  :: (param_object <$> tool_params t).

Definition copy_layout (n : nat) (t : tool_descriptor) : tool_layout :=
  {| at_dict := n; at_params := S n;
     at_items := seq (n + 2) (length (tool_params t)) |}.

Fixpoint copy_heap (n : nat) (ts : list tool_descriptor) : list object :=
  match ts with
  | [] => []
  | t :: rest => copy_objects n t ++ copy_heap (n + 2 + length (tool_params t)) rest
  end.

Fixpoint copy_layouts (n : nat) (ts : list tool_descriptor) : list tool_layout :=
  match ts with
  | [] => []
  | t :: rest => copy_layout n t :: copy_layouts (n + 2 + length (tool_params t)) rest
  end.

(** A value a caller may hold after [get_tools] on a store of [n]
    objects: a scalar, or a reference to an object created since. *)
Definition owned (n : nat) (x : value) : Prop :=
  match x with
  | VRef l => n <= l
  | _ => True
  end.

(** Every item of the object is owned. *)
Definition refs_above (n : nat) (o : object) : Prop :=
  match o with
  | List items => Forall (owned n) items
  | Dict items => Forall (fun kv => owned n kv.2) items
  end.

(** The objects created since the store had [n] objects refer only to
    one another. *)
Definition closed_above (n : nat) (h : list object) : Prop :=
  forall l o, n <= l -> h !! l = Some o -> refs_above n o.

(** An annotation that lacks the three parts, or whose description is
    not a string, or whose required flag is not a boolean. *)
Definition malformed (param : annotation) : bool :=
  match param with
  | Parameter_empty | Plain _ => true
  | Annotated _ [VStr _; VBool _] => false
  | Annotated _ _ => true
  end.

(** ** The tools registered by the module itself *)

(** The annotations and documentation of the three decorated functions;
    what their bodies do with the world is left to [body]. *)
Definition random_number_generator `{Imports}
    (body : list (string * json) -> World -> World * result string) : capability :=
  {| __name__ := "random_number_generator";
     getdoc := Some "Generates a random number x, s.t. range[0] <= x < range[1]";
     parameters :=
       [("seed", Annotated (Class_ "int")
                   [VStr "The random seed used by the generator"; VBool true]);
        ("range", Annotated (GenericAlias "tuple[int, int]")
                    [VStr "The range of the generated numbers"; VBool true])];
     call := body |}.

Definition get_weather `{Imports}
    (body : list (string * json) -> World -> World * result string) : capability :=
  {| __name__ := "get_weather";
     getdoc := Some "Get the current weather for `city_name`";
     parameters :=
       [("city_name", Annotated (Class_ "str")
                        [VStr "The name of the city to be queried"; VBool true])];
     call := body |}.

Definition get_shell `{Imports}
    (body : list (string * json) -> World -> World * result string) : capability :=
  {| __name__ := "get_shell";
     getdoc := Some "Use shell to run command";
     parameters :=
       [("query", Annotated (Class_ "str")
                    [VStr "The command should run in Linux shell"; VBool true])];
     call := body |}.

(** ** A small instance to run the definitions on *)

Module Demo.

(** The double quote character. *)
Definition dq : string := String (ascii_of_nat 34) EmptyString.

(** The text of a JSON object with two integer members. *)
Definition object_text (k1 : string) (n1 : string) (k2 : string) (n2 : string) : string :=
  "{" +:+ dq +:+ k1 +:+ dq +:+ ": " +:+ n1 +:+ ", "
      +:+ dq +:+ k2 +:+ dq +:+ ": " +:+ n2 +:+ "}".

(** A decoder that knows a handful of texts and rejects the others the
    way [json.loads] rejects a text that is not JSON. *)
Definition loads (s : string) : result json :=
  if String.eqb s "{}" then Return (JObject [])
  else if String.eqb s "[]" then Return (JArray [])
  else if String.eqb s (object_text "a" "2" "b" "3")
  then Return (JObject [("a", JInt 2); ("b", JInt 3)])
  else if String.eqb s (object_text "a" "1" "b" "1")
  then Return (JObject [("a", JInt 1); ("b", JInt 1)])
  else Raise (Exc JSONDecodeError "Expecting value: line 1 column 1 (char 0)").

(** The world counts the calls that reached a tool. *)
#[local] Instance imports : Imports := {|
  World := nat;
  json_loads := loads;
  format_exc := fun e => "Traceback (most recent call last): " +:+ exc_str e;
  browser := fun code session_id w =>
    (S w, Return [new_ToolObservation "browser_result" code;
                  new_ToolObservation "browser_result" session_id]);
  cogview := fun code session_id w => (S w, Return []);
  python := fun code session_id w => (S w, Raise (Exc (OtherException "RuntimeError") code))
|}.

Definition show (n : Z) : string := NilEmpty.string_of_int (Z.to_int n).

(** [def add(a, b): return a + b] with both parameters annotated. *)
Definition add : capability :=
  {| __name__ := "add";
     getdoc := Some "  Add two integers.  ";
     parameters :=
       [("a", Annotated (Class_ "int") [VStr "first addend"; VBool true]);
        ("b", Annotated (Class_ "int") [VStr "second addend"; VBool true])];
     call := fun kwargs w =>
       match kwargs with
       | [("a", JInt a); ("b", JInt b)] => (S w, Return (show (a + b)))
       | _ => (w, Raise (Exc TypeError "add() got an unexpected keyword argument"))
       end |}.

(** A tool named [add] again, with another signature. *)
Definition add' : capability :=
  {| __name__ := "add";
     getdoc := Some "Add one.";
     parameters := [("a", Annotated (Class_ "int") [VStr "the number"; VBool false])];
     call := fun kwargs w => (S w, Return "0") |}.

(** A tool that leaves the interpreter: [sys.exit()]. *)
Definition quit : capability :=
  {| __name__ := "quit";
     getdoc := Some "Stop.";
     parameters := [];
     call := fun kwargs w => (S w, Raise (Exc SystemExit "")) |}.

(** A tool whose body raises. *)
Definition failing : capability :=
  {| __name__ := "failing";
     getdoc := Some "Fail.";
     parameters := [];
     call := fun kwargs w => (S w, Raise (Exc ValueError "bad value")) |}.

(** A function without a docstring. *)
Definition undocumented : capability :=
  {| __name__ := "undocumented";
     getdoc := None;
     parameters := [];
     call := fun kwargs w => (w, Return "") |}.

(** A function with a parameter that has no annotation, after a
    well-formed one. *)
Definition unannotated : capability :=
  {| __name__ := "unannotated";
     getdoc := Some "Second parameter is bare.";
     parameters :=
       [("a", Annotated (Class_ "int") [VStr "first"; VBool true]);
        ("b", Parameter_empty)];
     call := fun kwargs w => (w, Return "") |}.

(** A function whose annotation has a description but no required
    flag: [Annotated[int, "first"]]. *)
Definition two_part : capability :=
  {| __name__ := "two_part";
     getdoc := Some "Metadata of one part.";
     parameters := [("a", Annotated (Class_ "int") [VStr "first"])];
     call := fun kwargs w => (w, Return "") |}.

Definition noop (kwargs : list (string * json)) (w : nat) : nat * result string :=
  (w, Return "").

(** The registry once the module is imported. *)
Definition imported : registry :=
  (register_all [random_number_generator noop; get_weather noop; get_shell noop]
     empty_registry).1.

(** The registry with the tools used in the examples. *)
Definition with_add : registry :=
  (register_all [add; failing; quit] imported).1.

End Demo.

(** ** The hooks and the listing *)

(** What the hook table and the listing have to do with each other:
    a name has a hook exactly when it has a descriptor, and the hook is
    the function that the last descriptor of that name describes. *)
Definition hooks_described `{Imports} (st : registry) (ts : list tool_descriptor) : Prop :=
  forall name,
    match _TOOL_HOOKS st !! name with
    | Some func =>
        __name__ func = name
        /\ exists t, descriptor_of func = Some t
                    /\ last (filter (fun t => tool_name t = name) ts) = Some t
    | None => filter (fun t => tool_name t = name) ts = []
    end.

(** ** The bodies of the registered tools *)

(** The values that the body of a tool meets: what [json.loads]
    produces, and tuples, which only a direct caller can pass. *)
#[local] Unset Elimination Schemes.
Inductive pyval :=
| PNone
| PBool (b : bool)
| PInt (n : Z)
| PFloat (literal : string)
| PStr (s : string)
| PList (items : list pyval)
| PTuple (items : list pyval)
| PDict (items : list (string * pyval)).
#[local] Set Elimination Schemes.

(** A decoded JSON value as a Python value: arrays are lists. *)
Fixpoint of_json (x : json) : pyval :=
  match x with
  | JNull => PNone
  | JBool b => PBool b
  | JInt n => PInt n
  | JFloat literal => PFloat literal
  | JString s => PStr s
  | JArray items => PList (map of_json items)
  | JObject items => PDict (map (fun kv => (kv.1, of_json kv.2)) items)
  end.

(** [type(x).__name__] *)
Definition type_name (x : pyval) : string :=
  match x with
  | PNone => "NoneType"
  | PBool _ => "bool"
  | PInt _ => "int"
  | PFloat _ => "float"
  | PStr _ => "str"
  | PList _ => "list"
  | PTuple _ => "tuple"
  | PDict _ => "dict"
  end.

(** [subprocess.CompletedProcess], with the output as text. *)
Record CompletedProcess := {
  returncode : Z;
  stdout : string;
  stderr : string
}.

(** The library calls of the tool bodies: [repr(x)];
    [random.Random(seed).randint(a, b)]; [requests.get(url)] followed
    by [raise_for_status()] and [json()]; and the process run by
    [subprocess.run(query, shell=True, stdout=PIPE, stderr=PIPE,
    text=True)], before its exit status is checked. *)
Class Libraries `{Imports} := {
  py_repr : pyval -> string;
  randint : Z -> Z -> Z -> result Z;
  requests_get_json : string -> World -> World * result json;
  subprocess_run : string -> World -> World * result CompletedProcess
}.

(** [str(x)]: a string is its own text. *)
Definition py_str `{Libraries} (x : pyval) : string :=
  match x with
  | PStr s => s
  | _ => py_repr x
  end.

(** *** Calling a function with keyword arguments *)

Definition show_nat (n : nat) : string := NilEmpty.string_of_uint (Nat.to_uint n).

(** [kwargs[name]]; a decoded object holds a key once. *)
Fixpoint kw_get (name : string) (kwargs : list (string * json)) : option json :=
  match kwargs with
  | [] => None
  | (k, x) :: rest => if String.eqb name k then Some x else kw_get name rest
  end.

(** The first keyword that names no parameter. *)
Fixpoint unexpected_keyword (names : list string) (kwargs : list (string * json))
  : option string :=
  match kwargs with
  | [] => None
  | (k, _) :: rest =>
      if bool_decide (k ∈ names) then unexpected_keyword names rest else Some k
  end.

(** The parameters that got no argument. *)
Fixpoint missing_arguments (names : list string) (kwargs : list (string * json))
  : list string :=
  match names with
  | [] => []
  | name :: rest =>
      match kw_get name kwargs with
      | Some _ => missing_arguments rest kwargs
      | None => name :: missing_arguments rest kwargs
      end
  end.

(** The end of a list of three names or more: ['b', and 'c']. *)
Fixpoint quoted_names_tail (names : list string) : string :=
  match names with
  | [] => ""
  | [a] => "and '" +:+ a +:+ "'"
  | a :: rest => "'" +:+ a +:+ "', " +:+ quoted_names_tail rest
  end.

(** ['a'], ['a' and 'b'], ['a', 'b', and 'c'] *)
Definition quoted_names (names : list string) : string :=
  match names with
  | [] => ""
  | [a] => "'" +:+ a +:+ "'"
  | [a; b] => "'" +:+ a +:+ "' and '" +:+ b +:+ "'"
  | a :: rest => "'" +:+ a +:+ "', " +:+ quoted_names_tail rest
  end.

(** The [TypeError] of calling the function [fname], whose parameters
    are [names], all without default, with the keyword arguments
    [kwargs] (CPython wording); [None] when the call binds. *)
Definition call_error (fname : string) (names : list string)
    (kwargs : list (string * json)) : option exception :=
  match unexpected_keyword names kwargs with
  | Some k =>
      Some (Exc TypeError
              (fname +:+ "() got an unexpected keyword argument '" +:+ k +:+ "'"))
  | None =>
      match missing_arguments names kwargs with
      | [] => None
      | [a] =>
          Some (Exc TypeError
                  (fname +:+ "() missing 1 required positional argument: '" +:+ a +:+ "'"))
      | ms =>
          Some (Exc TypeError
                  (fname +:+ "() missing " +:+ show_nat (length ms)
                   +:+ " required positional arguments: " +:+ quoted_names ms))
      end
  end.

(** The argument bound to the parameter [name]. *)
Definition argument (name : string) (kwargs : list (string * json)) : pyval :=
  match kw_get name kwargs with
  | Some x => of_json x
  | None => PNone
  end.

(** The call of a function of one or two parameters with keyword
    arguments, followed by [str], as [dispatch_tool] does it. *)
Definition call1 `{Libraries} (fname p1 : string)
    (body : pyval -> World -> World * result pyval)
    (kwargs : list (string * json)) (w : World) : World * result string :=
  match call_error fname [p1] kwargs with
  | Some e => (w, Raise e)
  | None =>
      match body (argument p1 kwargs) w with
      | (w', Return ret) => (w', Return (py_str ret))
      | (w', Raise e) => (w', Raise e)
      end
  end.

Definition call2 `{Libraries} (fname p1 p2 : string)
    (body : pyval -> pyval -> World -> World * result pyval)
    (kwargs : list (string * json)) (w : World) : World * result string :=
  match call_error fname [p1; p2] kwargs with
  | Some e => (w, Raise e)
  | None =>
      match body (argument p1 kwargs) (argument p2 kwargs) w with
      | (w', Return ret) => (w', Return (py_str ret))
      | (w', Raise e) => (w', Raise e)
      end
  end.

(** *** [random_number_generator] *)

(** [isinstance(x, int)]: [bool] is a subclass of [int]. *)
Definition isinstance_int (x : pyval) : bool :=
  match x with
  | PInt _ | PBool _ => true
  | _ => false
  end.

(** The integer that an instance of [int] stands for. *)
Definition int_value (x : pyval) : Z :=
  match x with
  | PInt n => n
  | PBool true => 1
  | _ => 0
  end.

(** [t[i]] on the items of a tuple. *)
Definition tuple_getitem (items : list pyval) (i : nat) : result pyval :=
  match items !! i with
  | Some x => Return x
  | None => Raise (Exc (OtherException "IndexError") "tuple index out of range")
  end.

Definition random_number_generator_body `{Libraries} (seed range : pyval) (w : World)
  : World * result pyval :=
  if negb (isinstance_int seed) then
    (w, Raise (Exc TypeError "Seed must be an integer"))
  else
    match range with
    | PTuple items =>
        match tuple_getitem items 0 with
        | Raise e => (w, Raise e)
        | Return first =>
            if negb (isinstance_int first) then
              (w, Raise (Exc TypeError "Range must be a tuple of integers"))
            else
              match tuple_getitem items 1 with
              | Raise e => (w, Raise e)
              | Return second =>
                  if negb (isinstance_int second) then
                    (w, Raise (Exc TypeError "Range must be a tuple of integers"))
                  else
                    match items with
                    | [a; b] =>
                        match randint (int_value seed) (int_value a) (int_value b) with
                        | Return n => (w, Return (PInt n))
                        | Raise e => (w, Raise e)
                        end
                    | _ =>
                        (w, Raise (Exc TypeError
                                     ("Random.randint() takes 3 positional arguments but "
                                      +:+ show_nat (S (length items)) +:+ " were given")))
                    end
              end
        end
    | _ => (w, Raise (Exc TypeError "Range must be a tuple"))
    end.

(** *** [get_weather] *)

Definition newline : string := String (ascii_of_nat 10) EmptyString.

Definition key_selection : list (string * list string) :=
  [("current_condition",
    ["temp_C"; "FeelsLikeC"; "humidity"; "weatherDesc"; "observation_time"])].

Fixpoint pdict_get (k : string) (items : list (string * pyval)) : option pyval :=
  match items with
  | [] => None
  | (k', x) :: rest => if String.eqb k k' then Some x else pdict_get k rest
  end.

(** [x[k]] for a string [k] (CPython wording of the errors). *)
Definition getitem_str (x : pyval) (k : string) : result pyval :=
  match x with
  | PDict items =>
      match pdict_get k items with
      | Some y => Return y
      | None => Raise (Exc (OtherException "KeyError") ("'" +:+ k +:+ "'"))
      end
  | PList _ | PTuple _ =>
      Raise (Exc TypeError
               (type_name x +:+ " indices must be integers or slices, not str"))
  | PStr _ => Raise (Exc TypeError "string indices must be integers, not 'str'")
  | _ => Raise (Exc TypeError ("'" +:+ type_name x +:+ "' object is not subscriptable"))
  end.

(** [x[0]]; the keys of a decoded object are strings, never [0]. *)
Definition getitem_0 (x : pyval) : result pyval :=
  match x with
  | PList (y :: _) | PTuple (y :: _) => Return y
  | PList [] | PTuple [] =>
      Raise (Exc (OtherException "IndexError") (type_name x +:+ " index out of range"))
  | PStr (String c _) => Return (PStr (String c EmptyString))
  | PStr EmptyString =>
      Raise (Exc (OtherException "IndexError") "string index out of range")
  | PDict _ => Raise (Exc (OtherException "KeyError") "0")
  | _ => Raise (Exc TypeError ("'" +:+ type_name x +:+ "' object is not subscriptable"))
  end.

(** [{_v: resp[k][0][_v] for _v in v}] *)
Fixpoint select_fields (resp : pyval) (k : string) (v : list string)
  : result (list (string * pyval)) :=
  match v with
  | [] => Return []
  | _v :: rest =>
      match getitem_str resp k with
      | Raise e => Raise e
      | Return entries =>
          match getitem_0 entries with
          | Raise e => Raise e
          | Return entry =>
              match getitem_str entry _v with
              | Raise e => Raise e
              | Return x =>
                  match select_fields resp k rest with
                  | Raise e => Raise e
                  | Return items => Return ((_v, x) :: items)
                  end
              end
          end
      end
  end.

(** [{k: {...} for k, v in key_selection.items()}] *)
Fixpoint select_keys (resp : pyval) (selection : list (string * list string))
  : result (list (string * pyval)) :=
  match selection with
  | [] => Return []
  | (k, v) :: rest =>
      match select_fields resp k v with
      | Raise e => Raise e
      | Return fields =>
          match select_keys resp rest with
          | Raise e => Raise e
          | Return items => Return ((k, PDict fields) :: items)
          end
      end
  end.

Definition get_weather_body `{Libraries} (city_name : pyval) (w : World)
  : World * result pyval :=
  match city_name with
  | PStr city =>
      let attempt :=
        match requests_get_json ("https://wttr.in/" +:+ city +:+ "?format=j1") w with
        | (w', Raise e) => (w', Raise e)
        | (w', Return resp) =>
            match select_keys (of_json resp) key_selection with
            | Raise e => (w', Raise e)
            | Return items => (w', Return (PDict items))
            end
        end in
      match attempt with
      | (w', Return ret) => (w', Return (PStr (py_str ret)))
      | (w', Raise e) =>
          if issubclass_Exception (exc_type e) then
            let ret := PStr ("Error encountered while fetching weather data!"
                             +:+ newline +:+ format_exc e) in
            (w', Return (PStr (py_str ret)))
          else (w', Raise e)
      end
  | _ => (w, Raise (Exc TypeError "City name must be a string"))
  end.

(** *** [get_shell] *)

(** [subprocess.run(..., check=True)]: the process completes with
    status 0, or [CalledProcessError] carries what it left, or the run
    itself raises. *)
Inductive run_outcome :=
| Completed (result : CompletedProcess)
| CalledProcessError (e : CompletedProcess)
| RunRaised (e : exception).

Definition run_checked `{Libraries} (query : string) (w : World) : World * run_outcome :=
  match subprocess_run query w with
  | (w', Return p) =>
      if (returncode p =? 0)%Z then (w', Completed p) else (w', CalledProcessError p)
  | (w', Raise e) => (w', RunRaised e)
  end.

Definition get_shell_body `{Libraries} (query : pyval) (w : World)
  : World * result pyval :=
  match query with
  | PStr q =>
      match run_checked q w with
      | (w', Completed result) => (w', Return (PStr (stdout result)))
      | (w', CalledProcessError e) => (w', Return (PStr (stderr e)))
      | (w', RunRaised e) => (w', Raise e)
      end
  | _ => (w, Raise (Exc TypeError "Command must be a string"))
  end.

(** *** The three functions as the module registers them *)

Definition random_number_generator_tool `{Libraries} : capability :=
  random_number_generator
    (call2 "random_number_generator" "seed" "range" random_number_generator_body).

Definition get_weather_tool `{Libraries} : capability :=
  get_weather (call1 "get_weather" "city_name" get_weather_body).

Definition get_shell_tool `{Libraries} : capability :=
  get_shell (call1 "get_shell" "query" get_shell_body).

(** The registry when the module has been imported. *)
Definition module_registry `{Libraries} : registry :=
  (register_all [random_number_generator_tool; get_weather_tool; get_shell_tool]
     empty_registry).1.

(** ** The text extractors of [utils.py] *)

Module Utils.

(** [sep.join(parts)] *)
Fixpoint join (sep : string) (parts : list string) : string :=
  match parts with
  | [] => ""
  | [p] => p
  | p :: rest => p +:+ sep +:+ join sep rest
  end.

(** [extract_pdf], on the [page_content] of the loaded pages. *)
Definition extract_pdf (pages : list string) : string :=
  join (newline +:+ newline) pages.

(** [extract_docx], on the [text] of the paragraphs of the document. *)
Definition extract_docx (paragraphs : list string) : string :=
  join (newline +:+ newline) paragraphs.

(** [extract_pptx], on the shapes of every slide: a shape has a [text]
    attribute or none. *)
Definition extract_pptx (slides : list (list (option string))) : string :=
  foldl (fun text shapes =>
           foldl (fun text shape =>
                    match shape with
                    | Some shape_text => text +:+ shape_text +:+ newline
                    | None => text
                    end) text shapes) "" slides.

End Utils.

(** ** A second instance, with the tool bodies *)

Module DemoTools.

Definition dq : string := Demo.dq.

(** The text of a JSON object with one member. *)
Definition object_text (k v : string) : string :=
  "{" +:+ dq +:+ k +:+ dq +:+ ": " +:+ v +:+ "}".

Definition quoted (s : string) : string := dq +:+ s +:+ dq.

Definition range_text : string :=
  "{" +:+ dq +:+ "seed" +:+ dq +:+ ": 1, " +:+ dq +:+ "range" +:+ dq +:+ ": [1, 6]}".

Definition loads (s : string) : result json :=
  if String.eqb s (object_text "query" (quoted "pwd"))
  then Return (JObject [("query", JString "pwd")])
  else if String.eqb s (object_text "query" (quoted "false"))
  then Return (JObject [("query", JString "false")])
  else if String.eqb s (object_text "query" "5")
  then Return (JObject [("query", JInt 5)])
  else if String.eqb s range_text
  then Return (JObject [("seed", JInt 1); ("range", JArray [JInt 1; JInt 6])])
  else if String.eqb s (object_text "city_name" (quoted "Paris"))
  then Return (JObject [("city_name", JString "Paris")])
  else if String.eqb s (object_text "city_name" "5")
  then Return (JObject [("city_name", JInt 5)])
  else if String.eqb s "[]" then Return (JArray [])
  else Raise (Exc JSONDecodeError "Expecting value: line 1 column 1 (char 0)").

#[local] Instance imports : Imports := {|
  World := nat;
  json_loads := loads;
  format_exc := fun e => "Traceback (most recent call last): " +:+ exc_str e;
  browser := fun code session_id w => (S w, Return []);
  cogview := fun code session_id w => (S w, Return []);
  python := fun code session_id w => (S w, Return [])
|}.

(** The network is down; [pwd] succeeds and any other command fails. *)
#[local] Instance libraries : Libraries := {|
  py_repr := fun x => match x with PInt n => Demo.show n | _ => "{...}" end;
  randint := fun seed a b =>
    if (a <=? b)%Z then Return a
    else Raise (Exc ValueError "empty range for randrange()");
  requests_get_json := fun url w =>
    (S w, Raise (Exc (OtherException "ConnectionError") url));
  subprocess_run := fun query w =>
    (S w, Return (if String.eqb query "pwd"
                  then {| returncode := 0; stdout := "/root"; stderr := "" |}
                  else {| returncode := 1; stdout := "";
                          stderr := "command failed: " +:+ query |}))
|}.

(** The registry once the module is imported. *)
Definition imported : registry := module_registry.

End DemoTools.

(** ** A third instance, with literals and integers as payloads *)

Module DemoJson.

(** An integer literal of [n] digits. *)
Fixpoint ones (n : nat) : string :=
  match n with
  | O => EmptyString
  | S n => String "1" (ones n)
  end.

Definition is_digit (c : ascii) : bool :=
  let n := nat_of_ascii c in ((48 <=? n) && (n <=? 57))%nat.

(** A text that is an integer literal of JSON without sign: digits,
    the first of which is [0] only when alone. *)
Definition is_integer (s : string) : bool :=
  match s with
  | EmptyString => false
  | String "0" EmptyString => true
  | String "0" _ => false
  | _ => PyStr.all_chars is_digit s
  end.

(** [int(s)] under [sys.get_int_max_str_digits() == 4300], the default. *)
Definition int_of_digits (s : string) : result Z :=
  if (4300 <? String.length s)%nat then
    Raise (Exc ValueError
             ("Exceeds the limit (4300 digits) for integer string conversion: value has "
              +:+ show_nat (String.length s)
              +:+ " digits; use sys.set_int_max_str_digits() to increase the limit"))
  else
    match NilEmpty.uint_of_string s with
    | Some d => Return (Z.of_uint d)
    | None => Raise (Exc ValueError ("invalid literal for int() with base 10: '" +:+ s +:+ "'"))
    end.

(** A decoder for the three literals, the empty object and the
    integers, which [json.loads] hands to [int]; digits after a first
    [0] are extra data, and every other text gets the answer that
    [json.loads] gives to a text that starts no value, such as [tru]. *)
Definition loads (s : string) : result json :=
  if String.eqb s "true" then Return (JBool true)
  else if String.eqb s "false" then Return (JBool false)
  else if String.eqb s "null" then Return JNull
  else if String.eqb s "{}" then Return (JObject [])
  else if is_integer s then
    match int_of_digits s with
    | Return n => Return (JInt n)
    | Raise e => Raise e
    end
  else
    match s with
    | String "0" (String c _) =>
        if is_digit c
        then Raise (Exc JSONDecodeError "Extra data: line 1 column 2 (char 1)")
        else Raise (Exc JSONDecodeError "Expecting value: line 1 column 1 (char 0)")
    | _ => Raise (Exc JSONDecodeError "Expecting value: line 1 column 1 (char 0)")
    end.

#[local] Instance imports : Imports := {|
  World := nat;
  json_loads := loads;
  format_exc := fun e => "Traceback (most recent call last): " +:+ exc_str e;
  browser := fun code session_id w => (S w, Return []);
  cogview := fun code session_id w => (S w, Return []);
  python := fun code session_id w => (S w, Return [])
|}.

(** [def echo_tool(text): return text] *)
Definition echo_tool : capability :=
  {| __name__ := "echo_tool";
     getdoc := Some "Return the text.";
     parameters := [("text", Annotated (Class_ "str") [VStr "the text"; VBool true])];
     call := fun kwargs w =>
       match kwargs with
       | [("text", JString text)] => (S w, Return text)
       | _ => (w, Raise (Exc TypeError "echo_tool() got an unexpected keyword argument"))
       end |}.

(** The registry with [echo_tool]. *)
Definition with_echo : registry := (register_all [echo_tool] empty_registry).1.

End DemoJson.

(** * Properties *)

(** ** Stripping *)

Section stripping.
Import PyStr.
#[local] Arguments String.append : simpl nomatch.

Example strip_example : strip "  {}  " = "{}".
Proof. reflexivity. Qed.

Example rstrip_example : rstrip "{}<|observation|>" "<|observation|>" = "{}".
Proof. reflexivity. Qed.

(** [rstrip] takes a set of characters: the end of the word goes too. *)
Example rstrip_set_example : rstrip "observation<|observation|>" "<|observation|>" = "".
Proof. reflexivity. Qed.

Lemma app_empty_r (s : string) : s +:+ "" = s.
Proof. induction s as [|c s IH]; simpl; [done | by rewrite IH]. Qed.

Lemma app_assoc_s (a b c : string) : (a +:+ b) +:+ c = a +:+ (b +:+ c).
Proof. induction a as [|x a IH]; simpl; [done | by rewrite IH]. Qed.

Lemma app_eq_empty (a b : string) : a +:+ b = "" -> a = "" /\ b = "".
Proof. destruct a; simpl; [done | discriminate]. Qed.

Lemma rstrip_with_app p a b :
  rstrip_with p (a +:+ b) =
  match rstrip_with p b with
  | EmptyString => rstrip_with p a
  | r => a +:+ r
  end.
Proof.
  induction a as [|c a IH]; simpl.
  - by destruct (rstrip_with p b).
  - rewrite IH. destruct (rstrip_with p b) as [|d r] eqn:E; [done |].
    destruct a; done.
Qed.

Lemma lstrip_with_app p a b :
  lstrip_with p (a +:+ b) =
  match lstrip_with p a with
  | EmptyString => lstrip_with p b
  | r => r +:+ b
  end.
Proof.
  induction a as [|c a IH]; simpl; [by destruct (lstrip_with p b) |].
  destruct (p c); done.
Qed.

Lemma rstrip_with_all p t : all_chars p t = true -> rstrip_with p t = "".
Proof.
  induction t as [|c t IH]; simpl; [done |].
  intros [Hc Ht]%andb_prop. by rewrite (IH Ht), Hc.
Qed.

Lemma rstrip_with_clean p s : ends_clean p s = true -> rstrip_with p s = s.
Proof.
  unfold ends_clean. induction s as [|c s IH]; simpl; [done |].
  destruct s as [|d s].
  - simpl. intros ->%negb_true_iff. done.
  - intros H. rewrite (IH H). done.
Qed.

Lemma rstrip_with_split p s :
  exists t, s = rstrip_with p s +:+ t /\ all_chars p t = true.
Proof.
  induction s as [|c s (t & Hs & Ht)]; simpl; [by exists "" |].
  destruct (rstrip_with p s) as [|d r] eqn:E.
  - simpl in Hs. subst t. destruct (p c) eqn:Hc.
    + exists (String c s). split; [done |]. simpl. by rewrite Hc.
    + by exists s.
  - exists t. split; [|done]. simpl in *. by rewrite <- Hs.
Qed.

Lemma rstrip_with_ends_clean p s : ends_clean p (rstrip_with p s) = true.
Proof.
  unfold ends_clean. induction s as [|c s IH]; simpl; [done |].
  destruct (rstrip_with p s) as [|d r] eqn:E.
  - destruct (p c) eqn:Hc; simpl; [done | by rewrite Hc].
  - done.
Qed.

Lemma rstrip_with_unique p s a t :
  s = a +:+ t -> all_chars p t = true -> ends_clean p a = true ->
  rstrip_with p s = a.
Proof.
  intros -> Ht Ha. rewrite rstrip_with_app, (rstrip_with_all _ _ Ht).
  by apply rstrip_with_clean.
Qed.

Lemma length_app_s (a b : string) :
  String.length (a +:+ b) = String.length a + String.length b.
Proof. induction a as [|c a IH]; simpl; [done | by rewrite IH]. Qed.

Lemma rstrip_with_ext p q s :
  (forall c, p c = q c) -> rstrip_with p s = rstrip_with q s.
Proof.
  intros E. induction s as [|c s IH]; simpl; [done |]. by rewrite IH, E.
Qed.

Lemma all_chars_last p s c :
  all_chars p s = true -> last_char s = Some c -> p c = true.
Proof.
  induction s as [|d s IH]; simpl; [done |].
  intros [Hd Hs]%andb_prop. destruct s; [by intros [= <-] | by apply IH].
Qed.

Lemma all_chars_rstrip_with p q s :
  all_chars q s = true -> all_chars q (rstrip_with p s) = true.
Proof.
  induction s as [|c s IH]; simpl; [done |].
  intros [Hc Hs]%andb_prop. specialize (IH Hs).
  destruct (rstrip_with p s).
  - destruct (p c); simpl; [done | by rewrite Hc].
  - simpl in *. by rewrite Hc, IH.
Qed.

Lemma lstrip_with_head p c s : p c = false -> lstrip_with p (String c s) = String c s.
Proof. simpl. by intros ->. Qed.

Lemma mem_marker c : mem c marker = in_marker c.
Proof. by destruct c as [[] [] [] [] [] [] [] []]. Qed.

Lemma in_marker_not_space c : in_marker c = true -> isspace c = false.
Proof. by destruct c as [[] [] [] [] [] [] [] []]. Qed.

Lemma rstrip_marker s : rstrip s marker = rstrip_with in_marker s.
Proof. apply rstrip_with_ext, mem_marker. Qed.

(** A payload followed by marker characters: the tail goes, and so does
    whatever of the payload is made of marker characters. *)
Lemma clean_app_tail code tail :
  tail <> "" -> all_chars in_marker tail = true ->
  clean (code +:+ tail) = strip (rstrip_with in_marker (lstrip_with isspace code)).
Proof.
  intros Hne Hall. unfold clean. rewrite rstrip_marker. f_equal.
  assert (Hr : rstrip_with isspace tail = tail).
  { apply rstrip_with_clean. unfold ends_clean.
    destruct (last_char tail) as [c|] eqn:E; [|done].
    by rewrite (in_marker_not_space c (all_chars_last _ _ _ Hall E)). }
  assert (Hl : lstrip_with isspace tail = tail).
  { destruct tail as [|c tail]; [done |]. simpl in Hall.
    apply andb_prop in Hall as [Hc _]. by apply lstrip_with_head, in_marker_not_space. }
  unfold strip. rewrite rstrip_with_app, Hr.
  destruct tail as [|c tail]; [done |].
  rewrite lstrip_with_app, Hl.
  assert (Ht : rstrip_with in_marker (String c tail) = "") by by apply rstrip_with_all.
  destruct (lstrip_with isspace code) as [|d r] eqn:E.
  - by rewrite Ht.
  - by rewrite rstrip_with_app, Ht.
Qed.

Lemma strip_app_space s t :
  all_chars isspace t = true -> strip (s +:+ t) = strip s.
Proof.
  intros Ht. unfold strip. by rewrite rstrip_with_app, (rstrip_with_all _ _ Ht).
Qed.

Lemma clean_app_tail_clean code tail c :
  tail <> "" -> all_chars in_marker tail = true ->
  last_char (strip code) = Some c -> in_marker c = false ->
  clean (code +:+ tail) = clean code.
Proof.
  intros Hne Hall Hlast Hc. rewrite clean_app_tail by done.
  unfold clean. rewrite rstrip_marker.
  assert (Hs : rstrip_with in_marker (strip code) = strip code).
  { apply rstrip_with_clean. unfold ends_clean. by rewrite Hlast, Hc. }
  rewrite Hs. unfold strip in *.
  destruct (rstrip_with_split isspace code) as (t & Hcode & Ht).
  set (r := rstrip_with isspace code) in *.
  rewrite Hcode at 1. rewrite lstrip_with_app.
  destruct (lstrip_with isspace r) as [|d s] eqn:E; [done |].
  rewrite rstrip_with_app.
  pose proof (all_chars_rstrip_with in_marker isspace t Ht) as Ht'.
  destruct (rstrip_with in_marker t) as [|e t'] eqn:E'.
  - by rewrite Hs.
  - rewrite <- E in Hs |- *. fold (strip (lstrip_with isspace r +:+ String e t')).
    rewrite strip_app_space by done. done.
Qed.

(** *** What [strip] returns *)

Lemma lstrip_with_split p s :
  exists t, s = t +:+ lstrip_with p s /\ all_chars p t = true.
Proof.
  induction s as [|c s (t & Hs & Ht)]; simpl; [by exists "" |].
  destruct (p c) eqn:Hc.
  - exists (String c t). simpl. rewrite Hc. split; [by rewrite <- Hs | done].
  - by exists "".
Qed.

Lemma lstrip_with_starts_clean p s :
  match lstrip_with p s with
  | EmptyString => True
  | String c _ => p c = false
  end.
Proof.
  induction s as [|c s IH]; simpl; [done |]. by destruct (p c) eqn:Hc.
Qed.

Lemma last_char_app t s c : last_char (t +:+ String c s) = last_char (String c s).
Proof.
  induction t as [|d t IH]; [done |].
  change (String d t +:+ String c s) with (String d (t +:+ String c s)).
  cbn [last_char]. rewrite IH. by destruct t.
Qed.

Lemma lstrip_with_ends_clean p q s :
  ends_clean q s = true -> ends_clean q (lstrip_with p s) = true.
Proof.
  destruct (lstrip_with_split p s) as (t & Hs & _).
  destruct (lstrip_with p s) as [|c r]; [done |].
  unfold ends_clean. rewrite Hs at 1. by rewrite last_char_app.
Qed.

(** [s.strip()] is [s] without a run of white space at each end, and
    it neither starts nor ends with white space. *)
Lemma strip_spec s :
  exists before after,
    s = before +:+ strip s +:+ after
    /\ all_chars isspace before = true
    /\ all_chars isspace after = true
    /\ match strip s with
       | EmptyString => True
       | String c _ => isspace c = false
       end
    /\ ends_clean isspace (strip s) = true.
Proof.
  destruct (rstrip_with_split isspace s) as (after & Hs & Hafter).
  destruct (lstrip_with_split isspace (rstrip_with isspace s)) as (before & Hr & Hbefore).
  exists before, after. unfold strip. split_and!; [| done | done | |].
  - rewrite Hs at 1. rewrite Hr at 1. by rewrite app_assoc_s.
  - apply lstrip_with_starts_clean.
  - apply lstrip_with_ends_clean, rstrip_with_ends_clean.
Qed.



End stripping.

(** ** Dispatch *)

Section dispatch.
Context `{Imports}.
Implicit Types (st : registry) (code session_id : string) (w : World).

Lemma ALL_TOOLS_lookup name :
  ALL_TOOLS !! name =
    if decide (name = "simple_browser") then Some browser
    else if decide (name = "python") then Some python
    else if decide (name = "cogview") then Some cogview
    else None.
Proof.
  unfold ALL_TOOLS. repeat case_decide; subst; simplify_map_eq; done.
Qed.

(** C5. A predefined tool name sends the raw payload and the session id
    to its handler, whose outcome is returned as it is: neither the
    payload cleaning, nor [json.loads], nor the registry take part. *)
Theorem dispatch_predefined st code session_id w :
  dispatch_tool st "simple_browser" code session_id w = browser code session_id w
  /\ dispatch_tool st "python" code session_id w = python code session_id w
  /\ dispatch_tool st "cogview" code session_id w = cogview code session_id w.
Proof.
  unfold dispatch_tool. rewrite !ALL_TOOLS_lookup. done.
Qed.

(** C6, as the code has it.  For a name outside the predefined tools
    and a cleaned payload on which [json.loads] raises: a
    [JSONDecodeError] gives one [system_error] observation carrying the
    text of the error, and the call returns; an exception of another
    class is not caught and leaves the dispatch. *)
Theorem dispatch_malformed_payload st name code session_id w e :
  ALL_TOOLS !! name = None ->
  json_loads (clean code) = Raise e ->
  dispatch_tool st name code session_id w =
    if issubclass_JSONDecodeError (exc_type e)
    then (w, Return [new_ToolObservation "system_error"
                       ("Error decoding JSON: " +:+ exc_str e)])
    else (w, Raise e).
Proof.
  intros Hpre Hloads. unfold dispatch_tool, dispatch_custom.
  by rewrite Hpre, Hloads.
Qed.


(** C1, as the code has it.  When the call of a registered tool raises
    an exception whose class derives from [Exception], the dispatch
    catches it and returns one [system_error] observation whose text is
    the formatted traceback. *)
Theorem dispatch_capability_exception st name tool_hook code session_id w params w' e :
  ALL_TOOLS !! name = None ->
  _TOOL_HOOKS st !! name = Some tool_hook ->
  json_loads (clean code) = Return params ->
  call_kw tool_hook params w = (w', Raise e) ->
  issubclass_Exception (exc_type e) = true ->
  dispatch_tool st name code session_id w =
    (w', Return [new_ToolObservation "system_error" (format_exc e)]).
Proof.
  intros Hpre Hreg Hloads Hcall Hcls. unfold dispatch_tool, dispatch_custom.
  by rewrite Hpre, Hloads, Hreg, Hcall, Hcls.
Qed.

(** An exception that derives from [BaseException] only, such as
    [SystemExit] or [KeyboardInterrupt], passes the [except] clause and
    reaches the caller of the dispatch. *)
Lemma dispatch_capability_exit st name tool_hook code session_id w params w' e :
  ALL_TOOLS !! name = None ->
  _TOOL_HOOKS st !! name = Some tool_hook ->
  json_loads (clean code) = Return params ->
  call_kw tool_hook params w = (w', Raise e) ->
  issubclass_Exception (exc_type e) = false ->
  dispatch_tool st name code session_id w = (w', Raise e).
Proof.
  intros Hpre Hreg Hloads Hcall Hcls. unfold dispatch_tool, dispatch_custom.
  by rewrite Hpre, Hloads, Hreg, Hcall, Hcls.
Qed.

(** A payload decoded to anything but an object cannot be unpacked into
    keyword arguments: the [TypeError] is an observation too. *)
Lemma dispatch_not_a_mapping st name tool_hook code session_id w params :
  ALL_TOOLS !! name = None ->
  _TOOL_HOOKS st !! name = Some tool_hook ->
  json_loads (clean code) = Return params ->
  (forall kwargs, params <> JObject kwargs) ->
  exists e, exc_type e = TypeError /\
    dispatch_tool st name code session_id w =
      (w, Return [new_ToolObservation "system_error" (format_exc e)]).
Proof.
  intros Hpre Hreg Hloads Hobj. unfold dispatch_tool, dispatch_custom.
  rewrite Hpre, Hloads, Hreg.
  destruct params; try (eexists (Exc TypeError _); split; [done | reflexivity]).
  by destruct (Hobj items).
Qed.

(** The successful call: one observation named after the tool. *)
Lemma dispatch_success st name tool_hook code session_id w params w' ret :
  ALL_TOOLS !! name = None ->
  _TOOL_HOOKS st !! name = Some tool_hook ->
  json_loads (clean code) = Return params ->
  call_kw tool_hook params w = (w', Return ret) ->
  dispatch_tool st name code session_id w = (w', Return [new_ToolObservation name ret]).
Proof.
  intros Hpre Hreg Hloads Hcall. unfold dispatch_tool, dispatch_custom.
  by rewrite Hpre, Hloads, Hreg, Hcall.
Qed.

(** The dispatch of a custom tool sees the payload through [clean]. *)
Lemma dispatch_clean st name code code' session_id session_id' w :
  ALL_TOOLS !! name = None -> clean code = clean code' ->
  dispatch_tool st name code session_id w = dispatch_tool st name code' session_id' w.
Proof. intros Hpre E. unfold dispatch_tool. by rewrite Hpre, E. Qed.

(** C8. For a tool outside the predefined ones and a payload that ends
    with the closing brace of a JSON object, the marker appended to the
    payload changes nothing. *)
Theorem dispatch_marker_appended st name code session_id w :
  ALL_TOOLS !! name = None ->
  ends_with_brace code ->
  dispatch_tool st name (code +:+ marker) session_id w =
  dispatch_tool st name code session_id w.
Proof.
  intros Hpre Hbrace. apply dispatch_clean; [done |].
  by apply (clean_app_tail_clean code marker "}"%char).
Qed.

(** C10. The marker is removed as a set of characters.  The cleaned
    payload is the stripped payload without its longest tail of marker
    characters, stripped again; so any non-empty tail of marker
    characters after a payload, be it the marker twice or a part of it,
    has the effect of the marker itself. *)
Theorem dispatch_marker_character_set st name code session_id w :
  ALL_TOOLS !! name = None ->
  (exists kept removed,
      PyStr.strip code = kept +:+ removed
      /\ PyStr.all_chars in_marker removed = true
      /\ PyStr.ends_clean in_marker kept = true
      /\ (forall a t, PyStr.strip code = a +:+ t ->
                      PyStr.all_chars in_marker t = true ->
                      String.length t <= String.length removed)
      /\ dispatch_tool st name code session_id w =
         dispatch_custom st name (PyStr.strip kept) w)
  /\ (forall tail, tail <> "" -> PyStr.all_chars in_marker tail = true ->
        dispatch_tool st name (code +:+ tail) session_id w =
        dispatch_tool st name (code +:+ marker) session_id w).
Proof.
  intros Hpre. split.
  - destruct (rstrip_with_split in_marker (PyStr.strip code)) as (removed & Hs & Hall).
    exists (PyStr.rstrip_with in_marker (PyStr.strip code)), removed.
    split_and!; [done | done | apply rstrip_with_ends_clean | |].
    + intros a t Ha Ht.
      assert (Hk : PyStr.rstrip_with in_marker (PyStr.strip code)
                   = PyStr.rstrip_with in_marker a).
      { by rewrite Ha, rstrip_with_app, (rstrip_with_all _ _ Ht). }
      destruct (rstrip_with_split in_marker a) as (t0 & Ha0 & _).
      apply (f_equal String.length) in Ha, Hs, Ha0.
      rewrite Hs, !length_app_s, Hk in Ha. rewrite length_app_s in Ha0. lia.
    + unfold dispatch_tool. rewrite Hpre. unfold clean. by rewrite rstrip_marker.
  - intros tail Hne Hall. apply dispatch_clean; [done |].
    by rewrite !clean_app_tail.
Qed.

End dispatch.

(** ** The store *)

Section store.
Implicit Types (h : list object) (l y : loc) (x : value) (o : object).

Lemma prefix_insert_ge h0 h i o :
  h0 `prefix_of` h -> length h0 <= i -> h0 `prefix_of` <[i := o]> h.
Proof.
  intros [k ->] Hi. exists (<[i - length h0 := o]> k).
  by rewrite insert_app_r_alt.
Qed.

Lemma list_append_at h k i items x :
  k !! i = Some (List items) ->
  list_append (length h + i) x (h ++ k) = h ++ <[i := List (items ++ [x])]> k.
Proof.
  intros Hi. unfold list_append.
  rewrite lookup_app_r by lia. replace (length h + i - length h) with i by lia.
  rewrite Hi. apply insert_app_r.
Qed.

Lemma dict_setitem_at h k i items key x :
  k !! i = Some (Dict items) ->
  dict_setitem (length h + i) key x (h ++ k) = h ++ <[i := Dict (dict_set key x items)]> k.
Proof.
  intros Hi. unfold dict_setitem.
  rewrite lookup_app_r by lia. replace (length h + i - length h) with i by lia.
  rewrite Hi. apply insert_app_r.
Qed.

Lemma list_append_prefix h0 h l x :
  h0 `prefix_of` h -> length h0 <= l -> h0 `prefix_of` list_append l x h.
Proof.
  intros Hp Hl. unfold list_append.
  destruct (h !! l) as [[]|]; auto using prefix_insert_ge.
Qed.

(** *** Reading *)

Lemma read_param_holds h l p :
  h !! l = Some (param_object p) -> read_param h (VRef l) = Some p.
Proof.
  intros Hl. unfold read_param. rewrite Hl. destruct p. simpl.
  by rewrite decide_True.
Qed.

Lemma read_params_holds h ls ps :
  Forall2 (fun l p => h !! l = Some (param_object p)) ls ps ->
  mapM (read_param h) (VRef <$> ls) = Some ps.
Proof.
  intros Hall. apply mapM_Some. apply Forall2_fmap_l.
  eapply Forall2_impl; [done |]. intros l p. apply read_param_holds.
Qed.

Lemma read_tool_holds h tl t :
  holds_tool h tl t -> read_tool h (VRef (at_dict tl)) = Some t.
Proof.
  intros (Hd & Hp & Hitems). unfold read_tool. rewrite Hd. destruct t. simpl in *.
  rewrite Hp. rewrite (read_params_holds _ _ _ Hitems). by rewrite decide_True.
Qed.

Lemma read_tools_at h root tls ts :
  h !! root = Some (List ((fun tl => VRef (at_dict tl)) <$> tls)) ->
  Forall2 (holds_tool h) tls ts ->
  read_tools h (VRef root) = Some ts.
Proof.
  intros Hroot Hall. unfold read_tools. simpl. rewrite Hroot.
  apply mapM_Some. apply Forall2_fmap_l.
  eapply Forall2_impl; [done |]. intros tl t. apply read_tool_holds.
Qed.

Lemma read_tools_holds h root tls ts :
  holds_tools h root tls ts -> read_tools h (VRef root) = Some ts.
Proof. intros (Hroot & Hall & _). by eapply read_tools_at. Qed.

(** *** Frames *)

Lemma holds_tool_frame h h' tl t :
  holds_tool h tl t ->
  (forall l, l ∈ footprint tl -> h' !! l = h !! l) ->
  holds_tool h' tl t.
Proof.
  intros (Hd & Hp & Hitems) Hsame. unfold footprint in Hsame. split_and!.
  - rewrite Hsame; [done | set_solver].
  - rewrite Hsame; [done | set_solver].
  - apply Forall2_same_length_lookup. apply Forall2_same_length_lookup in Hitems.
    destruct Hitems as [Hlen Hitems]. split; [done |].
    intros i l p Hi Hpi. rewrite Hsame; [by eapply Hitems |].
    apply list_elem_of_lookup_2 in Hi. set_solver.
Qed.

Lemma holds_tool_lt h tl t l :
  holds_tool h tl t -> l ∈ footprint tl -> l < length h.
Proof.
  intros (Hd & Hp & Hitems) Hl. unfold footprint in Hl.
  apply elem_of_cons in Hl as [-> | Hl]; [by eapply lookup_lt_Some |].
  apply elem_of_cons in Hl as [-> | Hl]; [by eapply lookup_lt_Some |].
  apply list_elem_of_lookup in Hl as [i Hi].
  destruct (Forall2_lookup_l _ _ _ _ _ Hitems Hi) as (p & _ & Hp').
  by eapply lookup_lt_Some.
Qed.

Lemma holds_tools_lt h root tls ts l :
  holds_tools h root tls ts -> l ∈ mjoin (footprint <$> tls) -> l < length h.
Proof.
  intros (_ & Hall & _) Hl.
  apply list_elem_of_join in Hl as (fp & Hl & Hfp).
  apply list_elem_of_fmap in Hfp as (tl & -> & Htl).
  apply list_elem_of_lookup in Htl as [i Hi].
  destruct (Forall2_lookup_l _ _ _ _ _ Hall Hi) as (t & _ & Ht).
  by eapply holds_tool_lt.
Qed.

Lemma holds_tools_prefix h h' root tls ts :
  holds_tools h root tls ts -> h `prefix_of` h' -> holds_tools h' root tls ts.
Proof.
  intros (Hroot & Hall & Hnd) Hp. split_and!; [by eapply prefix_lookup_Some | | done].
  eapply Forall2_impl; [done |]. intros tl t Ht.
  eapply holds_tool_frame; [done |]. intros l Hl.
  pose proof (holds_tool_lt _ _ _ _ Ht Hl) as Hlt.
  destruct Hp as [k ->]. by rewrite lookup_app_l.
Qed.


(** *** The loop over the parameters *)

Lemma param_entry_descriptor name param p :
  param_descriptor_of (name, param) = Some p ->
  param_entry name param = Return (param_object p).
Proof.
  unfold param_descriptor_of, param_entry.
  destruct param as [| |typ [|[] [|[] []]]]; try done.
  destruct (type_label typ); [|done]. by intros [= <-].
Qed.

Lemma param_entry_no_descriptor name param :
  param_descriptor_of (name, param) = None ->
  exists e, param_entry name param = Raise e /\ issubclass_Exception (exc_type e) = true.
Proof.
  unfold param_descriptor_of, param_entry, unpack_error.
  destruct param as [| |typ [|d [|r [|]]]]; try by eexists.
  destruct typ; simpl; destruct d, r; try done; by eexists.
Qed.

Lemma malformed_no_descriptor name param :
  malformed param = true -> param_descriptor_of (name, param) = None.
Proof. by destruct param as [| |typ [|[] [|[] []]]]. Qed.

Lemma params_loop_prefix h0 tp items h h' r :
  h0 `prefix_of` h -> length h0 <= tp ->
  params_loop tp items h = (h', r) -> h0 `prefix_of` h'.
Proof.
  revert h. induction items as [|[name param] items IH]; simpl; intros h Hp Htp.
  { by intros [= <- _]. }
  destruct (param_entry name param); [|by intros [= <- _]].
  apply IH; [|done]. apply list_append_prefix; [|done].
  by apply prefix_app_r.
Qed.

Lemma params_loop_raises tp items h :
  mapM param_descriptor_of items = None ->
  exists h' e, params_loop tp items h = (h', Raise e).
Proof.
  revert h. induction items as [|[name param] items IH]; [done |].
  intros h Hps. simpl.
  destruct (param_descriptor_of (name, param)) as [p|] eqn:Hp.
  - rewrite (param_entry_descriptor _ _ _ Hp). apply IH.
    apply mapM_None. apply mapM_None in Hps. inversion Hps; subst; [congruence | done].
  - destruct (param_entry_no_descriptor _ _ Hp) as (e & -> & _). by eexists _, _.
Qed.

Lemma params_loop_raise_class tp items h h' e :
  params_loop tp items h = (h', Raise e) -> issubclass_Exception (exc_type e) = true.
Proof.
  revert h. induction items as [|[name param] items IH]; [done |].
  intros h. simpl.
  destruct (param_descriptor_of (name, param)) as [p|] eqn:Hp.
  - rewrite (param_entry_descriptor _ _ _ Hp). apply IH.
  - destruct (param_entry_no_descriptor _ _ Hp) as (e' & -> & He'). by intros [= _ <-].
Qed.

Lemma params_loop_ok h k i vals items ps :
  k !! i = Some (List vals) ->
  mapM param_descriptor_of items = Some ps ->
  params_loop (length h + i) items (h ++ k) =
    (h ++ <[i := List (vals ++ (VRef <$> seq (length h + length k) (length ps)))]> k
       ++ (param_object <$> ps), Return tt).
Proof.
  revert k vals ps. induction items as [|[name param] items IH]; intros k vals ps Hi.
  - intros [= <-]. simpl. rewrite !app_nil_r. by rewrite list_insert_id.
  - intros Hps. apply mapM_Some in Hps. inversion Hps as [|? p ? ps' Hp Hps']; subst.
    apply mapM_Some in Hps'. simpl.
    rewrite (param_entry_descriptor _ _ _ Hp). unfold alloc.
    rewrite <- app_assoc.
    rewrite (list_append_at h (k ++ [param_object p]) i vals)
      by (apply lookup_app_l_Some, Hi).
    rewrite length_app.
    rewrite (IH _ (vals ++ [VRef (length h + length k)]) ps').
    + f_equal. f_equal. rewrite list_insert_insert_eq, length_insert, length_app. simpl.
      rewrite insert_app_l by by eapply lookup_lt_Some.
      rewrite <- !app_assoc. simpl. repeat f_equal. lia.
    + apply list_lookup_insert_eq. rewrite length_app.
      apply lookup_lt_Some in Hi. lia.
    + done.
Qed.


End store.

(** ** Registration *)

Section registration.
Context `{Imports}.
Implicit Types (st : registry) (func : capability) (h : list object).

Lemma register_tool_ok func st t vals :
  descriptor_of func = Some t ->
  store st !! _TOOL_DESCRIPTIONS = Some (List vals) ->
  register_tool func st =
    ({| _TOOL_HOOKS := <[__name__ func := func]> (_TOOL_HOOKS st);
        store := <[_TOOL_DESCRIPTIONS :=
                     List (vals ++ [VRef (at_dict (new_layout (length (store st)) t))])]>
                   (store st
                    ++ [List (VRef <$> at_items (new_layout (length (store st)) t))]
                    ++ (param_object <$> tool_params t)
                    ++ [tool_object t (length (store st))]) |},
     Return func).
Proof.
  unfold descriptor_of, register_tool, alloc. intros Ht Hroot.
  destruct (getdoc func) as [doc|]; [|done].
  destruct (mapM param_descriptor_of (parameters func)) as [ps|] eqn:Hps; [|done].
  injection Ht as <-. simpl.
  pose proof (params_loop_ok (store st) [List []] 0 [] _ _ eq_refl Hps) as Hloop.
  rewrite Nat.add_0_r in Hloop. rewrite Hloop. simpl.
  unfold list_append. rewrite <- !app_assoc. simpl.
  rewrite (lookup_app_l_Some _ _ _ _ Hroot).
  rewrite length_app. simpl. rewrite length_fmap.
  by replace (length (store st) + S (length ps))
    with (length (store st) + 1 + length ps) by lia.
Qed.

Lemma register_tool_fail func st :
  descriptor_of func = None ->
  exists e,
    (register_tool func st).2 = Raise e
    /\ issubclass_Exception (exc_type e) = true
    /\ _TOOL_HOOKS (register_tool func st).1 = _TOOL_HOOKS st
    /\ store st `prefix_of` store (register_tool func st).1.
Proof.
  unfold descriptor_of, register_tool, alloc. intros Ht.
  destruct (getdoc func) as [doc|]; [|by eexists].
  destruct (mapM param_descriptor_of (parameters func)) as [ps|] eqn:Hps; [done |].
  destruct (params_loop_raises (length (store st)) _ (store st ++ [List []]) Hps)
    as (h2 & e & Hloop).
  rewrite Hloop. simpl. exists e. split_and!; [done | | done |].
  - by eapply params_loop_raise_class.
  - eapply params_loop_prefix; [| |done]; [by apply prefix_app_r | done].
Qed.

Lemma holds_new_layout h0 k vals t :
  let n := length h0 in
  let h := <[_TOOL_DESCRIPTIONS :=
              List (vals ++ [VRef (at_dict (new_layout n t))])]>
             (h0 ++ [List (VRef <$> at_items (new_layout n t))]
                 ++ (param_object <$> tool_params t) ++ [tool_object t n] ++ k) in
  0 < n -> holds_tool h (new_layout n t) t.
Proof.
  intros n h Hn. unfold holds_tool, new_layout, h, _TOOL_DESCRIPTIONS. simpl. split_and!.
  - rewrite list_lookup_insert_ne by lia.
    rewrite lookup_app_r by (fold n; lia). fold n.
    replace (n + 1 + length (tool_params t) - n) with (S (length (tool_params t))) by lia.
    simpl. rewrite lookup_app_r by (rewrite length_fmap; lia).
    rewrite length_fmap, Nat.sub_diag. done.
  - rewrite list_lookup_insert_ne by lia.
    rewrite lookup_app_r by (fold n; lia). fold n. by rewrite Nat.sub_diag.
  - apply Forall2_same_length_lookup. split; [by rewrite length_seq |].
    intros i l p Hl Hp. apply lookup_seq in Hl as [-> Hi].
    rewrite list_lookup_insert_ne by lia.
    rewrite lookup_app_r by (fold n; lia). fold n.
    replace (n + 1 + i - n) with (S i) by lia. simpl.
    rewrite lookup_app_l by (rewrite length_fmap; lia).
    by rewrite list_lookup_fmap, Hp.
Qed.

Lemma register_tool_holds func st tls ts t :
  descriptor_of func = Some t ->
  holds_tools (store st) _TOOL_DESCRIPTIONS tls ts ->
  register_tool func st =
    ((register_tool func st).1, Return func)
  /\ _TOOL_HOOKS (register_tool func st).1 = <[__name__ func := func]> (_TOOL_HOOKS st)
  /\ holds_tools (store (register_tool func st).1) _TOOL_DESCRIPTIONS
       (tls ++ [new_layout (length (store st)) t]) (ts ++ [t]).
Proof.
  intros Ht Hst. pose proof Hst as (Hroot & Hall & Hnd).
  rewrite (register_tool_ok _ _ _ _ Ht Hroot). simpl. split; [done | split; [done |]].
  pose proof (lookup_lt_Some _ _ _ Hroot) as Hn. unfold _TOOL_DESCRIPTIONS in *.
  split_and!.
  - rewrite list_lookup_insert_eq by (rewrite length_app; lia).
    by rewrite fmap_app.
  - apply Forall2_app.
    + apply Forall2_same_length_lookup. apply Forall2_same_length_lookup in Hall as Hall'.
      destruct Hall' as [Hlen Hall']. split; [done |].
      intros i tl t' Htl Ht'. eapply holds_tool_frame; [by eapply Hall' |].
      intros l Hl.
      assert (Hin : l ∈ mjoin (footprint <$> tls)).
      { apply list_elem_of_join. exists (footprint tl). split; [done |].
        apply list_elem_of_fmap_2. by eapply list_elem_of_lookup_2. }
      pose proof (holds_tools_lt _ _ _ _ _ Hst Hin) as Hlt.
      apply NoDup_cons in Hnd as [Hroot0 _].
      rewrite list_lookup_insert_ne by (intros <-; done).
      by rewrite lookup_app_l.
    + constructor; [|constructor].
      exact (holds_new_layout (store st) [] _ t Hn).
  - rewrite fmap_app, join_app. simpl. rewrite app_nil_r.
    apply NoDup_cons in Hnd as [Hroot0 Hnd].
    apply NoDup_cons. split.
    + rewrite elem_of_app. intros [Hin | Hin]; [done |].
      unfold footprint, new_layout in Hin. simpl in Hin.
      rewrite !elem_of_cons, elem_of_seq in Hin. lia.
    + apply NoDup_app. split_and!; [done | |].
      * intros l Hl Hnew. pose proof (holds_tools_lt _ _ _ _ _ Hst Hl) as Hlt.
        unfold footprint, new_layout in Hnew. simpl in Hnew.
        rewrite !elem_of_cons, elem_of_seq in Hnew. lia.
      * unfold footprint, new_layout. simpl.
        apply NoDup_cons. split; [rewrite elem_of_cons, elem_of_seq; lia |].
        apply NoDup_cons. split; [rewrite elem_of_seq; lia | apply NoDup_seq].
Qed.

End registration.

(** ** Copying *)

Section copying.
Implicit Types (h : list object) (l y : loc) (x : value) (o : object)
  (memo : gmap nat nat).

Lemma deepcopy_scalar depth x s :
  is_scalar x = true -> deepcopy depth x s = Some (x, s).
Proof. by destruct depth, x. Qed.

Lemma dict_setitem_last h items k key x :
  dict_setitem (length h) key x (h ++ Dict items :: k)
  = h ++ Dict (dict_set key x items) :: k.
Proof.
  pose proof (dict_setitem_at h (Dict items :: k) 0 items key x eq_refl) as E.
  by rewrite Nat.add_0_r in E.
Qed.

Lemma deepcopy_list depth l h memo items :
  memo !! l = None -> h !! l = Some (List items) ->
  deepcopy (S depth) (VRef l) (h, memo) =
    match copy_list_items (deepcopy depth) (length h) items
            (h ++ [List []], <[l := length h]> memo) with
    | Some s' => Some (VRef (length h), s')
    | None => None
    end.
Proof. intros Hm Hl. simpl. by rewrite Hm, Hl. Qed.

Lemma deepcopy_dict depth l h memo items :
  memo !! l = None -> h !! l = Some (Dict items) ->
  deepcopy (S depth) (VRef l) (h, memo) =
    match copy_dict_items (deepcopy depth) (length h) items
            (h ++ [Dict []], <[l := length h]> memo) with
    | Some s' => Some (VRef (length h), s')
    | None => None
    end.
Proof. intros Hm Hl. simpl. by rewrite Hm, Hl. Qed.

Lemma copy_dict_items_scalar rec depth y key x rest h memo :
  rec = deepcopy depth -> is_scalar x = true ->
  copy_dict_items rec y ((key, x) :: rest) (h, memo)
  = copy_dict_items rec y rest (dict_setitem y key x h, memo).
Proof. intros -> Hx. simpl. by rewrite deepcopy_scalar. Qed.

#[local] Arguments deepcopy : simpl never.

Lemma deepcopy_param depth h memo l p :
  h !! l = Some (param_object p) -> memo !! l = None ->
  deepcopy (S depth) (VRef l) (h, memo)
  = Some (VRef (length h), (h ++ [param_object p], <[l := length h]> memo)).
Proof.
  intros Hl Hm. rewrite (deepcopy_dict _ _ _ _ _ Hm Hl).
  do 4 (rewrite (copy_dict_items_scalar _ depth) by done; rewrite dict_setitem_last).
  done.
Qed.

Lemma copy_param_items depth h0 k i acc ls ps memo :
  Forall2 (fun l p => h0 !! l = Some (param_object p)) ls ps ->
  NoDup ls -> (forall l, l ∈ ls -> memo !! l = None) ->
  k !! i = Some (List acc) ->
  exists memo',
    copy_list_items (deepcopy (S depth)) (length h0 + i) (VRef <$> ls) (h0 ++ k, memo)
    = Some (h0 ++ <[i := List (acc ++ (VRef <$> seq (length h0 + length k) (length ps)))]> k
               ++ (param_object <$> ps), memo')
    /\ (forall l, l ∉ ls -> memo' !! l = memo !! l).
Proof.
  intros Hall. revert k acc memo.
  induction Hall as [|l p ls ps Hl Hall IH]; intros k acc memo Hnd Hmemo Hi.
  - exists memo. simpl. rewrite !app_nil_r. by rewrite list_insert_id.
  - apply NoDup_cons in Hnd as [Hnotin Hnd]. rewrite fmap_cons.
    cbn [copy_list_items].
    rewrite (deepcopy_param depth (h0 ++ k) memo l p)
      by (apply lookup_app_l_Some, Hl || apply Hmemo; left).
    rewrite <- app_assoc.
    rewrite (list_append_at h0 (k ++ [param_object p]) i acc)
      by (apply lookup_app_l_Some, Hi).
    rewrite length_app.
    destruct (IH (<[i:=List (acc ++ [VRef (length h0 + length k)])]> (k ++ [param_object p]))
                (acc ++ [VRef (length h0 + length k)])
                (<[l := length h0 + length k]> memo)) as (memo' & Hcopy & Hframe).
    + done.
    + intros l' Hl'. rewrite lookup_insert_ne by (intros <-; done).
      apply Hmemo. by right.
    + apply list_lookup_insert_eq. rewrite length_app.
      apply lookup_lt_Some in Hi. lia.
    + exists memo'. split.
      * rewrite Hcopy. f_equal. f_equal. f_equal.
        rewrite list_insert_insert_eq, length_insert, length_app. simpl.
        rewrite insert_app_l by by eapply lookup_lt_Some.
        rewrite <- !app_assoc. simpl. repeat f_equal. lia.
      * intros l' Hl'. rewrite Hframe by set_solver.
        apply lookup_insert_ne. set_solver.
Qed.

Lemma deepcopy_tool depth h0 k tl t memo :
  holds_tool h0 tl t -> NoDup (footprint tl) ->
  (forall l, l ∈ footprint tl -> memo !! l = None) ->
  exists memo',
    deepcopy (S (S (S depth))) (VRef (at_dict tl)) (h0 ++ k, memo)
    = Some (VRef (length h0 + length k),
            (h0 ++ k ++ copy_objects (length h0 + length k) t, memo'))
    /\ (forall l, l ∉ footprint tl -> memo' !! l = memo !! l).
Proof.
  intros (Hd & Hp & Hitems) Hnd Hmemo. unfold footprint in *.
  apply NoDup_cons in Hnd as [Hd_fresh Hnd]. apply NoDup_cons in Hnd as [Hp_fresh Hnd].
  assert (Hmd : memo !! at_dict tl = None) by (apply Hmemo; set_solver).
  assert (Hmp : memo !! at_params tl = None) by (apply Hmemo; set_solver).
  rewrite (deepcopy_dict _ _ _ _ _ Hmd (lookup_app_l_Some _ k _ _ Hd)).
  do 2 (rewrite (copy_dict_items_scalar _ (S (S depth))) by done;
        rewrite dict_setitem_last).
  cbn [copy_dict_items dict_set String.eqb].
  rewrite <- app_assoc.
  set (n := length (h0 ++ k)).
  set (k1 := k ++ [Dict [("name", VStr (tool_name t));
                         ("description", VStr (tool_description t))]]).
  rewrite (deepcopy_list (S depth) (at_params tl) (h0 ++ k1) _ (VRef <$> at_items tl));
    [| rewrite lookup_insert_ne by set_solver; done | by apply lookup_app_l_Some].
  destruct (copy_param_items depth h0 (k1 ++ [List []]) (length k1) []
              (at_items tl) (tool_params t)
              (<[at_params tl := length (h0 ++ k1)]> (<[at_dict tl := n]> memo)))
    as (memo' & Hcopy & Hframe); [done | done | | |].
  { intros l Hl. rewrite !lookup_insert_ne by set_solver. apply Hmemo. set_solver. }
  { by rewrite lookup_app_r, Nat.sub_diag. }
  rewrite <- (length_app h0 k1), (app_assoc h0 k1) in Hcopy.
  rewrite Hcopy. cbv beta iota. exists memo'. split.
  - assert (Hk1 : forall o, <[length k1 := o]> (k1 ++ [List []]) = k1 ++ [o]).
    { intros o. by rewrite insert_app_r_alt, Nat.sub_diag by lia. }
    rewrite Hk1. unfold k1, n. rewrite <- !app_assoc.
    match goal with
    | |- context [dict_setitem _ _ _ (h0 ++ k ++ [?D] ++ ?R)] =>
        replace (h0 ++ k ++ [D] ++ R) with ((h0 ++ k) ++ D :: R)
          by (by rewrite <- app_assoc)
    end.
    rewrite dict_setitem_last.
    cbn [dict_set String.eqb Ascii.eqb Bool.eqb app].
    rewrite <- app_assoc. unfold copy_objects, tool_object.
    rewrite !length_app. cbn [length fmap list_fmap app].
    replace (length h0 + (length k + 1)) with (S (length h0 + length k)) by lia.
    by replace (length h0 + (length k + 2)) with (length h0 + length k + 2) by lia.
  - intros l Hl. rewrite Hframe by set_solver.
    rewrite !lookup_insert_ne by set_solver. done.
Qed.

Lemma length_copy_objects n t :
  length (copy_objects n t) = 2 + length (tool_params t).
Proof. unfold copy_objects. simpl. by rewrite length_fmap. Qed.

Lemma copy_tool_items depth h0 k i acc tls ts memo :
  3 <= depth ->
  Forall2 (holds_tool h0) tls ts ->
  NoDup (mjoin (footprint <$> tls)) ->
  (forall l, l ∈ mjoin (footprint <$> tls) -> memo !! l = None) ->
  k !! i = Some (List acc) ->
  exists memo',
    copy_list_items (deepcopy depth) (length h0 + i)
      ((fun tl => VRef (at_dict tl)) <$> tls) (h0 ++ k, memo)
    = Some (h0 ++ <[i := List (acc ++ ((fun tl => VRef (at_dict tl))
                                         <$> copy_layouts (length h0 + length k) ts))]> k
               ++ copy_heap (length h0 + length k) ts, memo').
Proof.
  intros Hdepth Hall. destruct depth as [|[|[|depth]]]; try lia. clear Hdepth.
  revert k acc memo.
  induction Hall as [|tl t tls ts Ht Hall IH]; intros k acc memo Hnd Hmemo Hi.
  - exists memo. simpl. rewrite !app_nil_r. by rewrite list_insert_id.
  - rewrite fmap_cons in Hnd, Hmemo. cbn [mjoin list_join] in Hnd, Hmemo.
    apply NoDup_app in Hnd as (Hnd_tl & Hdisj & Hnd).
    destruct (deepcopy_tool depth h0 k tl t memo Ht Hnd_tl) as (memo1 & Hcopy & Hframe).
    { intros l Hl. apply Hmemo. apply elem_of_app. by left. }
    rewrite fmap_cons. cbn [copy_list_items]. rewrite Hcopy.
    set (n := length h0 + length k).
    rewrite (list_append_at h0 (k ++ copy_objects n t) i acc)
      by (apply lookup_app_l_Some, Hi).
    destruct (IH (<[i := List (acc ++ [VRef n])]> (k ++ copy_objects n t))
                (acc ++ [VRef n]) memo1) as (memo' & Hrest).
    + done.
    + intros l Hl. rewrite Hframe; [apply Hmemo; set_solver |].
      intros Hl'. by eapply Hdisj.
    + apply list_lookup_insert_eq. rewrite length_app.
      apply lookup_lt_Some in Hi. lia.
    + exists memo'. rewrite Hrest. f_equal. f_equal. f_equal.
      rewrite list_insert_insert_eq, length_insert, length_app.
      rewrite insert_app_l by by eapply lookup_lt_Some.
      cbn [copy_layouts copy_heap fmap list_fmap copy_layout at_dict].
      rewrite length_copy_objects.
      replace (length h0 + (length k + (2 + length (tool_params t))))
        with (n + 2 + length (tool_params t)) by lia.
      by rewrite <- !app_assoc.
Qed.

Lemma holds_copy_layout h0 t k :
  holds_tool (h0 ++ copy_objects (length h0) t ++ k) (copy_layout (length h0) t) t.
Proof.
  unfold holds_tool, copy_layout, copy_objects. cbn [at_dict at_params at_items app].
  split_and!.
  - by rewrite list_lookup_middle.
  - rewrite lookup_app_r by lia. by replace (S (length h0) - length h0) with 1 by lia.
  - apply Forall2_same_length_lookup. split; [by rewrite length_seq |].
    intros i l p Hl Hp. apply lookup_seq in Hl as [-> Hi].
    rewrite lookup_app_r by lia.
    replace (length h0 + 2 + i - length h0) with (S (S i)) by lia.
    rewrite !lookup_cons.
    rewrite lookup_app_l by (rewrite length_fmap; lia).
    by rewrite list_lookup_fmap, Hp.
Qed.

Lemma holds_copy_layouts h0 ts k :
  Forall2 (holds_tool (h0 ++ copy_heap (length h0) ts ++ k))
    (copy_layouts (length h0) ts) ts.
Proof.
  revert h0. induction ts as [|t ts IH]; intros h0; [constructor |].
  cbn [copy_heap copy_layouts]. constructor.
  - rewrite <- app_assoc. apply holds_copy_layout.
  - specialize (IH (h0 ++ copy_objects (length h0) t)).
    rewrite length_app, length_copy_objects in IH.
    replace (length h0 + (2 + length (tool_params t)))
      with (length h0 + 2 + length (tool_params t)) in IH by lia.
    by rewrite <- !app_assoc in IH |- *.
Qed.

Lemma copy_layouts_at_dict m n ts :
  m <= n -> Forall (owned m) ((fun tl => VRef (at_dict tl)) <$> copy_layouts n ts).
Proof.
  revert n. induction ts as [|t ts IH]; intros n Hn; [constructor |].
  cbn [copy_layouts fmap list_fmap]. constructor; [done |]. apply IH. lia.
Qed.

Lemma copy_heap_above m n ts :
  m <= n -> Forall (refs_above m) (copy_heap n ts).
Proof.
  revert n. induction ts as [|t ts IH]; intros n Hn; [constructor |].
  cbn [copy_heap]. apply Forall_app. split; [|apply IH; lia].
  unfold copy_objects. repeat constructor; simpl; try lia.
  - apply Forall_fmap, Forall_forall. intros l Hl%elem_of_seq. simpl. lia.
  - apply Forall_fmap, Forall_forall. intros p _. repeat constructor.
Qed.

(** The copy made by [get_tools] on a store that holds descriptors. *)
Lemma deepcopy_descriptions h tls ts :
  holds_tools h _TOOL_DESCRIPTIONS tls ts ->
  exists memo,
    deepcopy (S (length h)) (VRef _TOOL_DESCRIPTIONS) (h, ∅)
    = Some (VRef (length h),
            (h ++ List ((fun tl => VRef (at_dict tl)) <$> copy_layouts (S (length h)) ts)
               :: copy_heap (S (length h)) ts, memo)).
Proof.
  intros Hholds. pose proof Hholds as (Hroot & Hall & Hnd).
  rewrite (deepcopy_list _ _ _ _ _ (lookup_empty _) Hroot).
  apply NoDup_cons in Hnd as [Hroot_fresh Hnd].
  destruct tls as [|tl tls].
  { apply Forall2_nil_inv_l in Hall as ->. by eexists. }
  assert (Hdepth : 3 <= length h).
  { assert (Hd : at_dict tl ∈ mjoin (footprint <$> tl :: tls)) by (simpl; by left).
    assert (Hp : at_params tl ∈ mjoin (footprint <$> tl :: tls))
      by (simpl; right; by left).
    pose proof (holds_tools_lt _ _ _ _ _ Hholds Hd).
    pose proof (holds_tools_lt _ _ _ _ _ Hholds Hp).
    assert (at_dict tl <> at_params tl).
    { simpl in Hnd. apply NoDup_cons in Hnd as [Hne _].
      intros E. apply Hne. rewrite E. by left. }
    assert (at_dict tl <> _TOOL_DESCRIPTIONS) by (intros E; by rewrite E in Hd).
    assert (at_params tl <> _TOOL_DESCRIPTIONS) by (intros E; by rewrite E in Hp).
    unfold _TOOL_DESCRIPTIONS in *. lia. }
  destruct (copy_tool_items (length h) h [List []] 0 [] (tl :: tls) ts
              (<[_TOOL_DESCRIPTIONS := length h]> ∅) Hdepth Hall Hnd)
    as (memo & Hcopy); [| done |].
  { intros l Hl. rewrite lookup_insert_ne; [apply lookup_empty |].
    intros <-. done. }
  rewrite Nat.add_0_r in Hcopy. rewrite Hcopy. exists memo.
  cbn [length insert list_insert app]. by rewrite Nat.add_1_r.
Qed.

End copying.

(** ** The caller's statements *)

Section caller.
Implicit Types (h : list object) (l : loc) (x tools : value) (o : object).

Lemma owned_scalar n x : is_scalar x = true -> owned n x.
Proof. by destruct x. Qed.

Lemma dict_get_owned n k items x :
  Forall (fun kv => owned n kv.2) items -> dict_get k items = Some x -> owned n x.
Proof.
  induction 1 as [|[k' x'] items Hx Hall IH]; simpl; [done |].
  destruct (String.eqb k k'); [by intros [= <-] | done].
Qed.

Lemma dict_set_owned n k x items :
  owned n x -> Forall (fun kv => owned n kv.2) items ->
  Forall (fun kv => owned n kv.2) (dict_set k x items).
Proof.
  intros Hx. induction 1 as [|[k' x'] items Hx' Hall IH]; simpl.
  - by repeat constructor.
  - destruct (String.eqb k k'); by constructor.
Qed.

Lemma select_owned n o s x :
  refs_above n o -> select o s = Some x -> owned n x.
Proof.
  destruct o as [items|items], s as [i|k]; simpl; try done.
  - intros Hall Hi. by eapply Forall_lookup_1.
  - apply dict_get_owned.
Qed.

Lemma resolve_owned n h x path x' :
  closed_above n h -> owned n x -> resolve h x path = Some x' -> owned n x'.
Proof.
  intros Hclosed. revert x. induction path as [|s path IH]; intros x Hx; simpl.
  { by intros [= <-]. }
  destruct x as [| | | |l]; try done.
  destruct (h !! l) as [o|] eqn:Hl; [|done].
  destruct (select o s) as [x1|] eqn:Hs; [|done].
  apply IH. eapply select_owned; [|done]. by eapply Hclosed.
Qed.

Lemma closed_above_alloc n h o :
  n <= length h -> closed_above n h -> refs_above n o -> closed_above n (h ++ [o]).
Proof.
  intros Hn Hclosed Ho l o' Hl Hlook.
  apply lookup_app_Some in Hlook as [Hlook | [_ Hlook]]; [by eapply Hclosed |].
  apply list_lookup_singleton_Some in Hlook as [_ <-]. done.
Qed.

Lemma closed_above_insert n h l o :
  closed_above n h -> refs_above n o -> closed_above n (<[l := o]> h).
Proof.
  intros Hclosed Ho l' o' Hl' Hlook.
  apply list_lookup_insert_Some in Hlook as [(-> & <- & _) | [_ Hlook]]; [done |].
  by eapply Hclosed.
Qed.

Lemma eval_operand_owned n h0 tools a h x h' :
  length h0 = n -> h0 `prefix_of` h -> closed_above n h -> owned n tools ->
  eval_operand tools a h = Some (x, h') ->
  h0 `prefix_of` h' /\ closed_above n h' /\ owned n x.
Proof.
  intros Hn Hp Hclosed Htools. pose proof (prefix_length _ _ Hp) as Hlen.
  destruct a as [c|path| |]; simpl.
  - destruct (is_scalar c) eqn:Hc; [|done]. intros [= <- <-].
    split_and!; [done | done | by apply owned_scalar].
  - destruct (resolve h tools path) as [x1|] eqn:Hr; [|done]. intros [= <- <-].
    split_and!; [done | done | by eapply resolve_owned].
  - intros [= <- <-]. split_and!; [by apply prefix_app_r | | simpl; lia].
    apply closed_above_alloc; [lia | done | constructor].
  - intros [= <- <-]. split_and!; [by apply prefix_app_r | | simpl; lia].
    apply closed_above_alloc; [lia | done | constructor].
Qed.

Lemma updated_above n o c x o' :
  refs_above n o -> owned n x -> updated o c x = Some o' -> refs_above n o'.
Proof.
  intros Ho Hx. destruct c as [t a|t [i|k] a|t [i|k]|t], o as [items|items];
    simpl in *; try done.
  - intros [= <-]. simpl. apply Forall_app. by repeat constructor.
  - case_decide; [|done]. intros [= <-]. simpl. by apply Forall_insert.
  - intros [= <-]. simpl. by apply dict_set_owned.
  - case_decide; [|done]. intros [= <-]. simpl. by apply Forall_delete.
  - destruct (dict_get k items); [|done]. intros [= <-]. simpl.
    unfold dict_del. rewrite Forall_forall in Ho |- *.
    intros kv [_ Hkv]%list_elem_of_filter. by apply Ho.
  - intros [= <-]. constructor.
  - intros [= <-]. constructor.
Qed.

Lemma exec_invariant n h0 tools c h :
  length h0 = n -> owned n tools ->
  h0 `prefix_of` h -> closed_above n h ->
  h0 `prefix_of` exec tools c h /\ closed_above n (exec tools c h).
Proof.
  intros Hn Htools Hp Hclosed. unfold exec.
  destruct (resolve h tools (target_of c)) as [[| | | |l]|] eqn:Hr; try done.
  destruct (eval_operand tools (operand_of c) h) as [[x h']|] eqn:He; [|done].
  destruct (eval_operand_owned n h0 tools _ h x h' Hn Hp Hclosed Htools He)
    as (Hp' & Hclosed' & Hx).
  pose proof (resolve_owned n h tools _ _ Hclosed Htools Hr) as Hl. simpl in Hl.
  destruct (h' !! l) as [o|] eqn:Hlook; [|done].
  destruct (updated o c x) as [o'|] eqn:Hu; [|done].
  split.
  - apply prefix_insert_ge; [done | lia].
  - apply closed_above_insert; [done |].
    eapply updated_above; [|done|done]. by eapply Hclosed'.
Qed.

Lemma run_invariant n h0 tools prog h :
  length h0 = n -> owned n tools ->
  h0 `prefix_of` h -> closed_above n h ->
  h0 `prefix_of` run tools prog h /\ closed_above n (run tools prog h).
Proof.
  intros Hn Htools. revert h. unfold run.
  induction prog as [|c prog IH]; intros h Hp Hclosed; simpl; [done |].
  destruct (exec_invariant n h0 tools c h Hn Htools Hp Hclosed). by apply IH.
Qed.

End caller.

(** ** The registry *)

Section registry.
Context `{Imports}.
Implicit Types (st : registry) (func : capability) (h : list object).

(** What [get_tools] returns on a store that holds descriptors. *)
Lemma get_tools_holds st tls ts :
  holds_tools (store st) _TOOL_DESCRIPTIONS tls ts ->
  exists ext,
    get_tools st = Some (VRef (length (store st)),
                         {| _TOOL_HOOKS := _TOOL_HOOKS st; store := store st ++ ext |})
    /\ Forall (refs_above (length (store st))) ext
    /\ read_tools (store st ++ ext) (VRef (length (store st))) = Some ts.
Proof.
  intros Hholds. destruct (deepcopy_descriptions _ _ _ Hholds) as (memo & Hcopy).
  unfold get_tools. rewrite Hcopy. eexists. split; [done |]. split.
  - constructor; [apply copy_layouts_at_dict; lia | apply copy_heap_above; lia].
  - eapply read_tools_at; [by rewrite list_lookup_middle |].
    pose proof (holds_copy_layouts
                  (store st ++ [List ((fun tl => VRef (at_dict tl))
                                        <$> copy_layouts (S (length (store st))) ts)])
                  ts []) as Hcopies.
    rewrite length_app, Nat.add_1_r, app_nil_r, <- app_assoc in Hcopies. done.
Qed.

Lemma closed_above_app h ext :
  Forall (refs_above (length h)) ext -> closed_above (length h) (h ++ ext).
Proof.
  intros Hext l o Hl Hlook. rewrite lookup_app_r in Hlook by done.
  by eapply Forall_lookup_1.
Qed.

(** Every reachable state holds descriptors in [_TOOL_DESCRIPTIONS]. *)
Lemma reachable_holds st :
  reachable st -> exists tls ts, holds_tools (store st) _TOOL_DESCRIPTIONS tls ts.
Proof.
  induction 1 as [|func st Hst (tls & ts & IH)|st tools st1 prog Hst (tls & ts & IH) Hget].
  - exists [], []. split_and!; [done | done |]. simpl. apply NoDup_singleton.
  - destruct (descriptor_of func) as [t|] eqn:Ht.
    + destruct (register_tool_holds _ _ _ _ _ Ht IH) as (_ & _ & Hnew). eauto.
    + destruct (register_tool_fail func st Ht) as (e & _ & _ & _ & Hp).
      exists tls, ts. by eapply holds_tools_prefix.
  - destruct (get_tools_holds st tls ts IH) as (ext & Hget' & Hext & _).
    rewrite Hget in Hget'. injection Hget' as -> ->. simpl.
    destruct (run_invariant (length (store st)) (store st) (VRef (length (store st)))
                prog (store st ++ ext)) as [Hp _];
      [done | simpl; lia | by apply prefix_app_r | by apply closed_above_app |].
    exists tls, ts. by eapply holds_tools_prefix.
Qed.

Lemma reachable_register_all funcs st :
  reachable st -> reachable (register_all funcs st).1.
Proof.
  revert st. induction funcs as [|func funcs IH]; intros st Hst; [done |].
  cbn [register_all]. pose proof (reachable_register func st Hst) as Hnext.
  destruct (register_tool func st) as [st' [f|e]]; [by apply IH | done].
Qed.

(** C9. [get_tools] returns a copy of its own.  In every reachable
    state, so after every sequence of registrations, it returns a
    value that reads as the descriptors of [_TOOL_DESCRIPTIONS];
    whatever statements the caller then runs on that value, every
    object that the store had before the call is as it was,
    [_TOOL_DESCRIPTIONS] still holds the same descriptors, and
    [get_tools] returns them again. *)
Theorem get_tools_defensive_copy st :
  reachable st ->
  exists tools st1 ts,
    descriptions st = Some ts
    /\ get_tools st = Some (tools, st1)
    /\ _TOOL_HOOKS st1 = _TOOL_HOOKS st
    /\ read_tools (store st1) tools = Some ts
    /\ forall prog,
         let st2 := {| _TOOL_HOOKS := _TOOL_HOOKS st1;
                       store := run tools prog (store st1) |} in
         store st `prefix_of` store st2
         /\ descriptions st2 = Some ts
         /\ exists tools' st3,
              get_tools st2 = Some (tools', st3)
              /\ read_tools (store st3) tools' = Some ts.
Proof.
  intros Hst. destruct (reachable_holds st Hst) as (tls & ts & Hholds).
  destruct (get_tools_holds st tls ts Hholds) as (ext & Hget & Hext & Hread).
  eexists _, _, ts. split_and!; [by eapply read_tools_holds | done | done | done |].
  intros prog st2. simpl in st2.
  destruct (run_invariant (length (store st)) (store st) (VRef (length (store st)))
              prog (store st ++ ext)) as [Hp Hclosed];
    [done | simpl; lia | by apply prefix_app_r | by apply closed_above_app |].
  pose proof (holds_tools_prefix _ _ _ _ _ Hholds Hp) as Hholds2.
  split_and!; [done | by eapply read_tools_holds |].
  destruct (get_tools_holds st2 tls ts Hholds2) as (ext2 & Hget2 & _ & Hread2).
  by eexists _, _.
Qed.

(** *** Sequences of registrations *)

Lemma register_all_holds funcs st tls ts0 ts :
  holds_tools (store st) _TOOL_DESCRIPTIONS tls ts0 ->
  Forall2 (fun func t => descriptor_of func = Some t) funcs ts ->
  exists st' tls',
    register_all funcs st = (st', Return tt)
    /\ holds_tools (store st') _TOOL_DESCRIPTIONS tls' (ts0 ++ ts)
    /\ forall name,
         _TOOL_HOOKS st' !! name =
           match last (filter (fun func => __name__ func = name) funcs) with
           | Some func => Some func
           | None => _TOOL_HOOKS st !! name
           end.
Proof.
  intros Hholds Hall. revert st tls ts0 Hholds.
  induction Hall as [|func t funcs ts Ht Hall IH]; intros st tls ts0 Hholds.
  - exists st, tls. rewrite app_nil_r. split; [done | split; [done |]].
    intros name. reflexivity.
  - destruct (register_tool_holds func st tls ts0 t Ht Hholds) as (Hreg & Hhooks & Hnew).
    destruct (IH _ _ _ Hnew) as (st' & tls' & Hrest & Hholds' & Hhooks').
    exists st', tls'. split_and!.
    + cbn [register_all]. by rewrite Hreg.
    + by rewrite <- app_assoc in Hholds'.
    + intros name. rewrite Hhooks', Hhooks, filter_cons. case_decide as Hname.
      * rewrite last_cons. destruct (last (filter _ funcs)); [done |].
        subst name. by rewrite lookup_insert_eq.
      * destruct (last (filter _ funcs)); [done |]. by rewrite lookup_insert_ne.
Qed.

Lemma descriptor_of_order func t :
  descriptor_of func = Some t ->
  tool_name t = __name__ func
  /\ param_name <$> tool_params t = fst <$> parameters func.
Proof.
  unfold descriptor_of. destruct (getdoc func) as [doc|]; [|done].
  destruct (mapM param_descriptor_of (parameters func)) as [ps|] eqn:Hps; [|done].
  intros [= <-]. simpl. split; [done |].
  apply mapM_Some in Hps. induction Hps as [|[name param] p items ps Hp Hps IH]; [done |].
  rewrite !fmap_cons, IH. f_equal.
  unfold param_descriptor_of in Hp.
  destruct param as [| |typ [|[] [|[] []]]]; try done.
  destruct (type_label typ); [|done]. by injection Hp as <-.
Qed.

(** C2, as the code has it.  A registration under a name writes the
    hook of that name, so the last capability registered under a name
    is the one found; every registration that succeeds appends its own
    descriptor to the listing.  After a sequence of registrations with
    complete, well-formed metadata the listing is what it was, followed
    by one descriptor per registration, in order, each with its
    parameters in declaration order; if the registered names are
    distinct, so are the names of the new descriptors. *)
Theorem registrations_and_listing funcs st :
  reachable st ->
  Forall (fun func => is_Some (descriptor_of func)) funcs ->
  exists st' ts0 ts tools st'',
    register_all funcs st = (st', Return tt)
    /\ (forall name,
          _TOOL_HOOKS st' !! name =
            match last (filter (fun func => __name__ func = name) funcs) with
            | Some func => Some func
            | None => _TOOL_HOOKS st !! name
            end)
    /\ descriptions st = Some ts0
    /\ get_tools st' = Some (tools, st'')
    /\ read_tools (store st'') tools = Some (ts0 ++ ts)
    /\ Forall2 (fun func t =>
                  descriptor_of func = Some t
                  /\ tool_name t = __name__ func
                  /\ param_name <$> tool_params t = fst <$> parameters func) funcs ts
    /\ (NoDup (__name__ <$> funcs) -> NoDup (tool_name <$> ts)).
Proof.
  intros Hst Hfuncs. destruct (reachable_holds st Hst) as (tls & ts0 & Hholds).
  assert (exists ts, Forall2 (fun func t => descriptor_of func = Some t) funcs ts)
    as [ts Hall].
  { induction Hfuncs as [|func funcs [t Ht] _ [ts IH]]; [by exists [] |].
    exists (t :: ts). by constructor. }
  destruct (register_all_holds funcs st tls ts0 ts Hholds Hall)
    as (st' & tls' & Hreg & Hholds' & Hhooks).
  destruct (get_tools_holds st' tls' _ Hholds') as (ext & Hget & _ & Hread).
  assert (Hdetail : Forall2 (fun func t =>
                  descriptor_of func = Some t
                  /\ tool_name t = __name__ func
                  /\ param_name <$> tool_params t = fst <$> parameters func) funcs ts).
  { eapply Forall2_impl; [done |]. intros func t Ht.
    split; [done | by apply descriptor_of_order]. }
  exists st', ts0, ts. eexists _, _.
  split_and!; [done | done | by eapply read_tools_holds | done | done | done |].
  assert (Hnames : tool_name <$> ts = __name__ <$> funcs).
  { clear -Hdetail. induction Hdetail as [|func t funcs ts (_ & Hn & _) _ IH]; [done |].
    by rewrite !fmap_cons, IH, Hn. }
  by rewrite Hnames.
Qed.

(** *** Registrations that raise *)

Lemma register_tool_returns func st :
  (register_tool func st).2 = Return func -> is_Some (descriptor_of func).
Proof.
  intros Hret. destruct (descriptor_of func) as [t|] eqn:Ht; [by eexists |].
  destruct (register_tool_fail func st Ht) as (e & He & _). congruence.
Qed.

(** C3. A capability without documentation is not registered: the call
    raises, [strip] being asked of [None], and the state is as it was.
    The description of a registered capability is its documentation
    with the white space at both ends removed: the documentation is the
    description between two runs of white space, and the description
    neither starts nor ends with white space. *)
Theorem register_tool_documentation func st :
  (getdoc func = None ->
   register_tool func st =
     (st, Raise (Exc AttributeError "'NoneType' object has no attribute 'strip'")))
  /\ (forall doc,
        getdoc func = Some doc -> reachable st ->
        (register_tool func st).2 = Return func ->
        exists ts t,
          descriptions st = Some ts
          /\ descriptions (register_tool func st).1 = Some (ts ++ [t])
          /\ tool_name t = __name__ func
          /\ tool_description t = PyStr.strip doc
          /\ exists before after,
               doc = before +:+ tool_description t +:+ after
               /\ PyStr.all_chars PyStr.isspace before = true
               /\ PyStr.all_chars PyStr.isspace after = true
               /\ match tool_description t with
                  | EmptyString => True
                  | String c _ => PyStr.isspace c = false
                  end
               /\ PyStr.ends_clean PyStr.isspace (tool_description t) = true).
Proof.
  split.
  - intros Hdoc. unfold register_tool. by rewrite Hdoc.
  - intros doc Hdoc Hst Hret.
    destruct (register_tool_returns _ _ Hret) as [t Ht].
    destruct (reachable_holds st Hst) as (tls & ts & Hholds).
    destruct (register_tool_holds _ _ _ _ _ Ht Hholds) as (_ & _ & Hnew).
    assert (Hdescription : tool_description t = PyStr.strip doc).
    { unfold descriptor_of in Ht. rewrite Hdoc in Ht.
      destruct (mapM _ _); [|done]. by injection Ht as <-. }
    exists ts, t. split_and!.
    + by eapply read_tools_holds.
    + by eapply read_tools_holds.
    + by apply descriptor_of_order.
    + done.
    + rewrite Hdescription. apply strip_spec.
Qed.

Lemma malformed_parameter_no_descriptor func name param :
  (name, param) ∈ parameters func -> malformed param = true ->
  descriptor_of func = None.
Proof.
  intros Hin Hbad. unfold descriptor_of. destruct (getdoc func); [|done].
  replace (mapM param_descriptor_of (parameters func)) with (@None (list param_descriptor));
    [done |].
  symmetry. apply mapM_None, Exists_exists. exists (name, param).
  split; [done | by apply malformed_no_descriptor].
Qed.

(** C4. When some parameter has no annotation, or one that is not of
    the three-part form, or a description that is not a string, or a
    required flag that is not a boolean, the registration raises; no
    hook is added, every object of the store is as it was, and the
    listing, read from [_TOOL_DESCRIPTIONS] or returned by [get_tools],
    holds the descriptors it held. *)
Theorem register_tool_malformed_parameter func st name param :
  (name, param) ∈ parameters func -> malformed param = true -> reachable st ->
  exists e ts,
    (register_tool func st).2 = Raise e
    /\ issubclass_Exception (exc_type e) = true
    /\ _TOOL_HOOKS (register_tool func st).1 = _TOOL_HOOKS st
    /\ store st `prefix_of` store (register_tool func st).1
    /\ descriptions st = Some ts
    /\ descriptions (register_tool func st).1 = Some ts
    /\ (exists tools st', get_tools st = Some (tools, st')
                          /\ read_tools (store st') tools = Some ts)
    /\ (exists tools st', get_tools (register_tool func st).1 = Some (tools, st')
                          /\ read_tools (store st') tools = Some ts).
Proof.
  intros Hin Hbad Hst.
  pose proof (malformed_parameter_no_descriptor _ _ _ Hin Hbad) as Hnone.
  destruct (register_tool_fail func st Hnone) as (e & He & Hcls & Hhooks & Hp).
  destruct (reachable_holds st Hst) as (tls & ts & Hholds).
  pose proof (holds_tools_prefix _ _ _ _ _ Hholds Hp) as Hholds'.
  destruct (get_tools_holds _ _ _ Hholds) as (ext & Hget & _ & Hread).
  destruct (get_tools_holds _ _ _ Hholds') as (ext' & Hget' & _ & Hread').
  exists e, ts.
  split_and!; [done | done | done | done | by eapply read_tools_holds
              | by eapply read_tools_holds | by eexists _, _ | by eexists _, _].
Qed.

End registry.

(** ** The theorems at work *)

Section instances.
#[local] Existing Instance Demo.imports.

(** A tool that calls [sys.exit()]: the [SystemExit] leaves
    [dispatch_tool] as an exception. *)
Lemma dispatch_raises_SystemExit :
  ALL_TOOLS !! "quit" = None
  /\ _TOOL_HOOKS Demo.with_add !! "quit" = Some Demo.quit
  /\ json_loads (clean "{}") = Return (JObject [])
  /\ call_kw Demo.quit (JObject []) 0 = (1, Raise (Exc SystemExit ""))
  /\ dispatch_tool Demo.with_add "quit" "{}" "s1" 0 = (1, Raise (Exc SystemExit ""))
  /\ forall observations,
       dispatch_tool Demo.with_add "quit" "{}" "s1" 0 <> (1, Return observations).
Proof. by vm_compute. Qed.

Lemma dispatch_capability_exception_witness :
  ALL_TOOLS !! "failing" = None
  /\ _TOOL_HOOKS Demo.with_add !! "failing" = Some Demo.failing
  /\ json_loads (clean "{}") = Return (JObject [])
  /\ call_kw Demo.failing (JObject []) 0 = (1, Raise (Exc ValueError "bad value"))
  /\ dispatch_tool Demo.with_add "failing" "{}" "s1" 0 =
       (1, Return [new_ToolObservation "system_error"
                     (format_exc (Exc ValueError "bad value"))]).
Proof.
  split_and!; [reflexivity | reflexivity | reflexivity | reflexivity |].
  apply (dispatch_capability_exception Demo.with_add "failing" Demo.failing "{}" "s1"
           0 (JObject []) 1 (Exc ValueError "bad value")); reflexivity.
Defined.

Lemma dispatch_malformed_payload_witness :
  ALL_TOOLS !! "add" = None
  /\ json_loads (clean "{invalid json")
     = Raise (Exc JSONDecodeError "Expecting value: line 1 column 1 (char 0)")
  /\ dispatch_tool Demo.with_add "add" "{invalid json" "s1" 0 =
       (0, Return [new_ToolObservation "system_error"
                     "Error decoding JSON: Expecting value: line 1 column 1 (char 0)"]).
Proof.
  split_and!; [reflexivity | reflexivity |].
  apply (dispatch_malformed_payload Demo.with_add "add" "{invalid json" "s1" 0
           (Exc JSONDecodeError "Expecting value: line 1 column 1 (char 0)"));
    reflexivity.
Defined.


Lemma dispatch_marker_appended_witness :
  ALL_TOOLS !! "add" = None
  /\ ends_with_brace (Demo.object_text "a" "1" "b" "1")
  /\ dispatch_tool Demo.with_add "add" (Demo.object_text "a" "1" "b" "1" +:+ marker) "s1" 0
     = dispatch_tool Demo.with_add "add" (Demo.object_text "a" "1" "b" "1") "s1" 0
  /\ dispatch_tool Demo.with_add "add" (Demo.object_text "a" "1" "b" "1") "s1" 0
     = (1, Return [new_ToolObservation "add" "2"]).
Proof.
  split_and!; [reflexivity | reflexivity | | reflexivity].
  apply (dispatch_marker_appended Demo.with_add "add"); reflexivity.
Defined.

Lemma dispatch_marker_character_set_witness :
  ALL_TOOLS !! "add" = None
  /\ dispatch_tool Demo.with_add "add" ("{}" +:+ marker +:+ marker) "s1" 0
     = dispatch_tool Demo.with_add "add" ("{}" +:+ marker) "s1" 0
  /\ dispatch_tool Demo.with_add "add" ("{}" +:+ "|>") "s1" 0
     = dispatch_tool Demo.with_add "add" ("{}" +:+ marker) "s1" 0
  /\ dispatch_tool Demo.with_add "add" ("{}" +:+ "observation") "s1" 0
     = dispatch_tool Demo.with_add "add" ("{}" +:+ marker) "s1" 0.
Proof.
  assert (Hpre : ALL_TOOLS !! "add" = None) by reflexivity.
  split_and!; [done | | |].
  - apply (proj2 (dispatch_marker_character_set Demo.with_add "add" "{}" "s1" 0 Hpre)
             (marker +:+ marker)); [discriminate | reflexivity].
  - apply (proj2 (dispatch_marker_character_set Demo.with_add "add" "{}" "s1" 0 Hpre)
             "|>"); [discriminate | reflexivity].
  - apply (proj2 (dispatch_marker_character_set Demo.with_add "add" "{}" "s1" 0 Hpre)
             "observation"); [discriminate | reflexivity].
Defined.

(** Marker characters at the end of the payload proper are removed with
    the marker: the text [true] reaches the decoder as [tru]. *)
Example clean_true : clean ("true" +:+ marker) = "tru".
Proof. reflexivity. Qed.

(** Two tools registered under one name: the hook is the second, the
    listing has a descriptor for each. *)
Lemma duplicate_name_listed_twice :
  is_Some (descriptor_of Demo.add) /\ is_Some (descriptor_of Demo.add')
  /\ (register_all [Demo.add; Demo.add'] empty_registry).2 = Return tt
  /\ _TOOL_HOOKS (register_all [Demo.add; Demo.add'] empty_registry).1 !! "add"
     = Some Demo.add'
  /\ exists tools st ts,
       get_tools (register_all [Demo.add; Demo.add'] empty_registry).1 = Some (tools, st)
       /\ read_tools (store st) tools = Some ts
       /\ tool_name <$> ts = ["add"; "add"]
       /\ ~ NoDup (tool_name <$> ts).
Proof.
  split_and!; [by eexists | by eexists | by vm_compute | by vm_compute |].
  destruct (get_tools (register_all [Demo.add; Demo.add'] empty_registry).1)
    as [[tools st]|] eqn:Hget; [|by vm_compute in Hget].
  destruct (read_tools (store st) tools) as [ts|] eqn:Hread;
    [|vm_compute in Hget; injection Hget as <- <-; by vm_compute in Hread].
  exists tools, st, ts.
  assert (Hnames : tool_name <$> ts = ["add"; "add"]).
  { vm_compute in Hget. injection Hget as <- <-.
    vm_compute in Hread. by injection Hread as <-. }
  split_and!; [done | done | done |]. rewrite Hnames.
  intros Hnd. apply NoDup_cons in Hnd as [Hin _]. apply Hin. by left.
Qed.

Lemma registrations_and_listing_witness :
  reachable Demo.imported
  /\ Forall (fun func => is_Some (descriptor_of func)) [Demo.add; Demo.failing]
  /\ exists st' ts0 ts tools st'',
    register_all [Demo.add; Demo.failing] Demo.imported = (st', Return tt)
    /\ (forall name,
          _TOOL_HOOKS st' !! name =
            match last (filter (fun func => __name__ func = name)
                          [Demo.add; Demo.failing]) with
            | Some func => Some func
            | None => _TOOL_HOOKS Demo.imported !! name
            end)
    /\ descriptions Demo.imported = Some ts0
    /\ get_tools st' = Some (tools, st'')
    /\ read_tools (store st'') tools = Some (ts0 ++ ts)
    /\ Forall2 (fun func t =>
                  descriptor_of func = Some t
                  /\ tool_name t = __name__ func
                  /\ param_name <$> tool_params t = fst <$> parameters func)
         [Demo.add; Demo.failing] ts
    /\ (NoDup (__name__ <$> [Demo.add; Demo.failing]) -> NoDup (tool_name <$> ts)).
Proof.
  assert (Hreach : reachable Demo.imported).
  { apply reachable_register_all, reachable_empty. }
  assert (Hwf : Forall (fun func => is_Some (descriptor_of func)) [Demo.add; Demo.failing]).
  { repeat constructor; by eexists. }
  split_and!; [done | done |].
  exact (registrations_and_listing [Demo.add; Demo.failing] Demo.imported Hreach Hwf).
Defined.

Lemma reachable_imported : reachable Demo.imported.
Proof. apply reachable_register_all, reachable_empty. Qed.

Lemma register_tool_documentation_witness :
  getdoc Demo.undocumented = None
  /\ register_tool Demo.undocumented Demo.imported =
       (Demo.imported,
        Raise (Exc AttributeError "'NoneType' object has no attribute 'strip'"))
  /\ getdoc Demo.add = Some "  Add two integers.  "
  /\ (register_tool Demo.add Demo.imported).2 = Return Demo.add
  /\ exists ts t,
       descriptions Demo.imported = Some ts
       /\ descriptions (register_tool Demo.add Demo.imported).1 = Some (ts ++ [t])
       /\ tool_name t = __name__ Demo.add
       /\ tool_description t = "Add two integers."
       /\ exists before after,
            "  Add two integers.  " = before +:+ tool_description t +:+ after
            /\ PyStr.all_chars PyStr.isspace before = true
            /\ PyStr.all_chars PyStr.isspace after = true
            /\ match tool_description t with
               | EmptyString => True
               | String c _ => PyStr.isspace c = false
               end
            /\ PyStr.ends_clean PyStr.isspace (tool_description t) = true.
Proof.
  split_and!; [reflexivity | | reflexivity | reflexivity |].
  - exact (proj1 (register_tool_documentation Demo.undocumented Demo.imported) eq_refl).
  - exact (proj2 (register_tool_documentation Demo.add Demo.imported)
             "  Add two integers.  " eq_refl reachable_imported eq_refl).
Defined.

Lemma register_tool_malformed_parameter_witness :
  ("b", Parameter_empty) ∈ parameters Demo.unannotated
  /\ malformed Parameter_empty = true
  /\ exists e ts,
    (register_tool Demo.unannotated Demo.imported).2 = Raise e
    /\ issubclass_Exception (exc_type e) = true
    /\ _TOOL_HOOKS (register_tool Demo.unannotated Demo.imported).1
       = _TOOL_HOOKS Demo.imported
    /\ store Demo.imported `prefix_of` store (register_tool Demo.unannotated Demo.imported).1
    /\ descriptions Demo.imported = Some ts
    /\ descriptions (register_tool Demo.unannotated Demo.imported).1 = Some ts
    /\ (exists tools st', get_tools Demo.imported = Some (tools, st')
                          /\ read_tools (store st') tools = Some ts)
    /\ (exists tools st',
          get_tools (register_tool Demo.unannotated Demo.imported).1 = Some (tools, st')
          /\ read_tools (store st') tools = Some ts).
Proof.
  assert (Hin : ("b", Parameter_empty) ∈ parameters Demo.unannotated).
  { simpl. apply elem_of_cons. right. apply elem_of_cons. by left. }
  split_and!; [done | reflexivity |].
  exact (register_tool_malformed_parameter Demo.unannotated Demo.imported
           "b" Parameter_empty Hin eq_refl reachable_imported).
Defined.

Lemma get_tools_defensive_copy_witness :
  exists tools st1 ts,
    descriptions Demo.imported = Some ts
    /\ get_tools Demo.imported = Some (tools, st1)
    /\ _TOOL_HOOKS st1 = _TOOL_HOOKS Demo.imported
    /\ read_tools (store st1) tools = Some ts
    /\ forall prog,
         let st2 := {| _TOOL_HOOKS := _TOOL_HOOKS st1;
                       store := run tools prog (store st1) |} in
         store Demo.imported `prefix_of` store st2
         /\ descriptions st2 = Some ts
         /\ exists tools' st3,
              get_tools st2 = Some (tools', st3)
              /\ read_tools (store st3) tools' = Some ts.
Proof. exact (get_tools_defensive_copy Demo.imported reachable_imported). Defined.

(** The statements of the caller do change what they are run on: on
    the returned copy the first tool is renamed and the list emptied,
    and the same statements run on [_TOOL_DESCRIPTIONS] itself would
    have emptied the registry's listing. *)
Example statements_on_the_copy :
  match get_tools Demo.imported with
  | Some (tools, st1) =>
      read_tools
        (run tools [SetItem [Index 0] (Key "name") (Const (VStr "x"))] (store st1)) tools
      <> read_tools (store st1) tools
      /\ read_tools (run tools [Clear []] (store st1)) tools = Some []
      /\ descriptions
           {| _TOOL_HOOKS := ∅;
              store := run (VRef _TOOL_DESCRIPTIONS) [Clear []] (store st1) |} = Some []
  | None => False
  end.
Proof. by vm_compute. Qed.

(** The call [add(a=2, b=3)]: one observation named after the tool. *)
Example dispatch_add :
  dispatch_tool Demo.with_add "add" (Demo.object_text "a" "2" "b" "3") "s1" 0
  = (1, Return [new_ToolObservation "add" "5"]).
Proof. by vm_compute. Qed.

(** A JSON array cannot be unpacked into keyword arguments. *)
Example dispatch_array :
  dispatch_tool Demo.with_add "add" "[]" "s1" 0
  = (0, Return [new_ToolObservation "system_error"
                  "Traceback (most recent call last): add() argument after ** must be a mapping, not list"]).
Proof. by vm_compute. Qed.

(** A predefined tool gets a payload that is not JSON as it is. *)
Example dispatch_browser :
  dispatch_tool Demo.with_add "simple_browser" "{invalid json" "s1" 0
  = (1, Return [new_ToolObservation "browser_result" "{invalid json";
                new_ToolObservation "browser_result" "s1"]).
Proof. by vm_compute. Qed.

(** The exceptions of a registration: a parameter without annotation,
    and metadata of one part. *)
Example register_unannotated :
  (register_tool Demo.unannotated Demo.imported).2
  = Raise (Exc TypeError "Parameter `b` missing type annotation").
Proof. by vm_compute. Qed.

Example register_two_part :
  (register_tool Demo.two_part Demo.imported).2
  = Raise (Exc ValueError "not enough values to unpack (expected 2, got 1)").
Proof. by vm_compute. Qed.

(** The listing once the module is imported. *)
Example imported_names :
  option_map (map tool_name) (descriptions Demo.imported)
  = Some ["random_number_generator"; "get_weather"; "get_shell"].
Proof. by vm_compute. Qed.

End instances.

(** ** More on the dispatch *)

Section dispatch_more.
Context `{Imports}.
Implicit Types (st : registry) (code session_id : string) (w : World).

(** X1.  When the dispatch of a custom tool returns, it returns one
    observation, named after the tool or [system_error], with no image,
    role or metadata. *)
Theorem dispatch_custom_one_observation st name code session_id w w' observations :
  ALL_TOOLS !! name = None ->
  dispatch_tool st name code session_id w = (w', Return observations) ->
  exists content text,
    observations = [MkToolObservation content text None None None]
    /\ (content = name \/ content = "system_error").
Proof.
  intros Hpre. unfold dispatch_tool, dispatch_custom. rewrite Hpre.
  destruct (json_loads (clean code)) as [params|e].
  - destruct (_TOOL_HOOKS st !! name) as [tool_hook|].
    + destruct (call_kw tool_hook params w) as [w1 [ret|e]].
      * intros [= <- <-]. eauto.
      * destruct (issubclass_Exception (exc_type e)); [|done].
        intros [= <- <-]. eauto.
    + intros [= <- <-]. eauto.
  - destruct (issubclass_JSONDecodeError (exc_type e)); [|done].
    intros [= <- <-]. eauto.
Qed.

(** X2.  An exception leaves the dispatch of a custom tool in two cases
    only: [json.loads] raised something else than a [JSONDecodeError],
    or the tool raised an exception that does not derive from
    [Exception]. *)
Theorem dispatch_custom_raises st name code session_id w w' e :
  ALL_TOOLS !! name = None ->
  dispatch_tool st name code session_id w = (w', Raise e) ->
  (json_loads (clean code) = Raise e
   /\ issubclass_JSONDecodeError (exc_type e) = false /\ w' = w)
  \/ (exists tool_hook kwargs,
        json_loads (clean code) = Return (JObject kwargs)
        /\ _TOOL_HOOKS st !! name = Some tool_hook
        /\ call tool_hook kwargs w = (w', Raise e)
        /\ issubclass_Exception (exc_type e) = false).
Proof.
  intros Hpre. unfold dispatch_tool, dispatch_custom. rewrite Hpre.
  destruct (json_loads (clean code)) as [params|e0].
  - destruct (_TOOL_HOOKS st !! name) as [tool_hook|]; [|done].
    destruct (call_kw tool_hook params w) as [w1 [ret|e1]] eqn:Hcall; [done |].
    destruct (issubclass_Exception (exc_type e1)) eqn:Hcls; [done |].
    intros [= <- <-]. right.
    destruct params; simpl in Hcall;
      try (injection Hcall as <- <-; discriminate Hcls).
    by eexists _, _.
  - destruct (issubclass_JSONDecodeError (exc_type e0)) eqn:Hcls; [done |].
    intros [= <- <-]. by left.
Qed.

(** X3.  A tool registered under a name that is not predefined is the one
    that a dispatch under that name calls, with the members of the
    decoded object as keyword arguments. *)
Theorem register_then_dispatch func st code session_id w kwargs :
  (register_tool func st).2 = Return func ->
  ALL_TOOLS !! __name__ func = None ->
  json_loads (clean code) = Return (JObject kwargs) ->
  dispatch_tool (register_tool func st).1 (__name__ func) code session_id w =
    match call func kwargs w with
    | (w', Return ret) => (w', Return [new_ToolObservation (__name__ func) ret])
    | (w', Raise e) =>
        if issubclass_Exception (exc_type e)
        then (w', Return [new_ToolObservation "system_error" (format_exc e)])
        else (w', Raise e)
    end.
Proof.
  intros Hret Hpre Hloads. unfold dispatch_tool, dispatch_custom.
  rewrite Hpre, Hloads.
  assert (Hhook : _TOOL_HOOKS (register_tool func st).1 !! __name__ func = Some func).
  { revert Hret. unfold register_tool, alloc.
    destruct (getdoc func); [|by simpl].
    destruct (params_loop _ _ _) as [h2 [[]|e]]; [|by simpl].
    intros _. simpl. apply lookup_insert_eq. }
  by rewrite Hhook.
Qed.

(** X4.  White space around the payload of a custom tool changes nothing. *)
Theorem dispatch_padding st name code session_id w before after :
  ALL_TOOLS !! name = None ->
  PyStr.all_chars PyStr.isspace before = true ->
  PyStr.all_chars PyStr.isspace after = true ->
  dispatch_tool st name (before +:+ code +:+ after) session_id w
  = dispatch_tool st name code session_id w.
Proof.
  intros Hpre Hb Ha. apply dispatch_clean; [done |]. unfold clean. do 2 f_equal.
  rewrite <- app_assoc_s, strip_app_space by done.
  unfold PyStr.strip. rewrite rstrip_with_app.
  destruct (PyStr.rstrip_with PyStr.isspace code) as [|c r] eqn:Hr.
  - by rewrite rstrip_with_all.
  - rewrite lstrip_with_app.
    assert (Hl : PyStr.lstrip_with PyStr.isspace before = "").
    { clear -Hb. induction before as [|c before IH]; [done |]. simpl in *.
      apply andb_prop in Hb as [-> Hb]. by apply IH. }
    by rewrite Hl.
Qed.

End dispatch_more.

(** ** More on registration and the listing *)

Section registry_more.
Context `{Imports}.
Implicit Types (st : registry) (func : capability) (h : list object).

Lemma register_tool_described func st t :
  descriptor_of func = Some t -> (register_tool func st).2 = Return func.
Proof.
  unfold descriptor_of, register_tool, alloc. intros Ht.
  destruct (getdoc func) as [doc|]; [|done].
  destruct (mapM param_descriptor_of (parameters func)) as [ps|] eqn:Hps; [|done].
  pose proof (params_loop_ok (store st) [List []] 0 [] _ _ eq_refl Hps) as Hloop.
  rewrite Nat.add_0_r in Hloop. by rewrite Hloop.
Qed.

(** X5.  A registration returns exactly when the function has documentation
    and every parameter is annotated with a type that has a label, a
    string and a boolean; the store it runs on plays no part. *)
Theorem register_tool_returns_iff func st :
  (register_tool func st).2 = Return func
  <-> getdoc func <> None
      /\ Forall (fun item => is_Some (param_descriptor_of item)) (parameters func).
Proof.
  split.
  - intros Hret. destruct (register_tool_returns _ _ Hret) as [t Ht].
    unfold descriptor_of in Ht. destruct (getdoc func); [|done]. split; [done |].
    destruct (mapM param_descriptor_of (parameters func)) as [ps|] eqn:Hps; [|done].
    apply mapM_is_Some. by eexists.
  - intros [Hdoc Hparams]. apply mapM_is_Some in Hparams as [ps Hps].
    destruct (getdoc func) as [doc|] eqn:Hd; [|done].
    eapply register_tool_described. unfold descriptor_of. by rewrite Hd, Hps.
Qed.

Lemma params_loop_first_error tp good name param rest h e :
  Forall (fun item => is_Some (param_descriptor_of item)) good ->
  param_entry name param = Raise e ->
  (params_loop tp (good ++ (name, param) :: rest) h).2 = Raise e.
Proof.
  intros Hgood Hbad. revert h.
  induction Hgood as [|[name' param'] good [p Hp] _ IH]; intros h; simpl.
  - by rewrite Hbad.
  - rewrite (param_entry_descriptor _ _ _ Hp). apply IH.
Qed.

(** X6.  The exception of a registration is that of the first parameter, in
    declaration order, that fails a check; the parameters after it are
    not looked at. *)
Theorem register_tool_first_error func st doc good name param rest e :
  getdoc func = Some doc ->
  parameters func = good ++ (name, param) :: rest ->
  Forall (fun item => is_Some (param_descriptor_of item)) good ->
  param_entry name param = Raise e ->
  (register_tool func st).2 = Raise e.
Proof.
  intros Hdoc Hparams Hgood Hbad. unfold register_tool, alloc. rewrite Hdoc, Hparams.
  pose proof (params_loop_first_error (length (store st)) good name param rest
                (store st ++ [List []]) e Hgood Hbad) as Hloop.
  destruct (params_loop _ _ _) as [h2 r]. simpl in Hloop. by subst r.
Qed.

(** *** The hooks and the listing *)

Lemma reachable_hooks_described st :
  reachable st ->
  exists tls ts, holds_tools (store st) _TOOL_DESCRIPTIONS tls ts /\ hooks_described st ts.
Proof.
  induction 1 as [|func st Hst (tls & ts & IH & Hhooks)
                  |st tools st1 prog Hst (tls & ts & IH & Hhooks) Hget].
  - exists [], []. split.
    + split_and!; [done | done |]. simpl. apply NoDup_singleton.
    + intros name. simpl. by rewrite lookup_empty.
  - destruct (descriptor_of func) as [t|] eqn:Ht.
    + destruct (register_tool_holds _ _ _ _ _ Ht IH) as (_ & Hnew_hooks & Hnew).
      eexists _, _. split; [done |]. intros name. rewrite Hnew_hooks.
      rewrite filter_app, filter_cons, filter_nil.
      destruct (descriptor_of_order _ _ Ht) as [Hname _].
      destruct (decide (__name__ func = name)) as [<-|Hne].
      * rewrite lookup_insert_eq. split; [done |]. exists t. split; [done |].
        rewrite decide_True by done. by rewrite last_snoc.
      * rewrite lookup_insert_ne by done. rewrite decide_False by congruence.
        rewrite app_nil_r. apply Hhooks.
    + destruct (register_tool_fail func st Ht) as (e & _ & _ & Hsame & Hp).
      exists tls, ts. split; [by eapply holds_tools_prefix |].
      intros name. rewrite Hsame. apply Hhooks.
    - destruct (get_tools_holds st tls ts IH) as (ext & Hget' & Hext & _).
      rewrite Hget in Hget'. injection Hget' as -> ->. simpl.
      destruct (run_invariant (length (store st)) (store st) (VRef (length (store st)))
                  prog (store st ++ ext)) as [Hp _];
        [done | simpl; lia | by apply prefix_app_r | by apply closed_above_app |].
      exists tls, ts. split; [by eapply holds_tools_prefix |].
      intros name. apply Hhooks.
Qed.

(** X7.  In every reachable state a name has a hook exactly when the listing
    has a descriptor of that name, and the hook is the function
    described by the last descriptor listed under the name (an earlier
    descriptor of the same name describes a function that can no longer
    be called). *)
Theorem hooks_agree_with_listing st :
  reachable st ->
  exists ts,
    descriptions st = Some ts
    /\ forall name,
         match _TOOL_HOOKS st !! name with
         | Some func =>
             __name__ func = name
             /\ exists t, descriptor_of func = Some t
                         /\ last (filter (fun t => tool_name t = name) ts) = Some t
         | None => name ∉ tool_name <$> ts
         end.
Proof.
  intros Hst. destruct (reachable_hooks_described st Hst) as (tls & ts & Hholds & Hhooks).
  exists ts. split; [by eapply read_tools_holds |].
  intros name. specialize (Hhooks name).
  destruct (_TOOL_HOOKS st !! name); [done |].
  intros (t & -> & Hin)%list_elem_of_fmap.
  assert (Ht : t ∈ filter (fun t0 => tool_name t0 = tool_name t) ts)
    by by apply list_elem_of_filter.
  rewrite Hhooks in Ht. by apply elem_of_nil in Ht.
Qed.

End registry_more.

(** ** More on [get_tools] *)

Section copies.
Implicit Types (h : list object) (l y : loc) (x : value) (memo : gmap nat nat).

Lemma dict_setitem_prefix h0 h l k x :
  h0 `prefix_of` h -> length h0 <= l -> h0 `prefix_of` dict_setitem l k x h.
Proof.
  intros Hp Hl. unfold dict_setitem.
  destruct (h !! l) as [[]|]; auto using prefix_insert_ge.
Qed.

Lemma copy_list_items_prefix rec h0 y items h memo h' memo' :
  (forall a h1 memo1 a' h2 memo2,
      rec a (h1, memo1) = Some (a', (h2, memo2)) -> h1 `prefix_of` h2) ->
  h0 `prefix_of` h -> length h0 <= y ->
  copy_list_items rec y items (h, memo) = Some (h', memo') ->
  h0 `prefix_of` h'.
Proof.
  intros Hrec. revert h memo.
  induction items as [|a items IH]; intros h memo Hp Hy; simpl.
  { by intros [= <- <-]. }
  destruct (rec a (h, memo)) as [[a' [h1 memo1]]|] eqn:Ha; [|done].
  apply IH; [|done]. apply list_append_prefix; [|done].
  etrans; [done |]. by eapply Hrec.
Qed.

Lemma copy_dict_items_prefix rec h0 y items h memo h' memo' :
  (forall a h1 memo1 a' h2 memo2,
      rec a (h1, memo1) = Some (a', (h2, memo2)) -> h1 `prefix_of` h2) ->
  h0 `prefix_of` h -> length h0 <= y ->
  copy_dict_items rec y items (h, memo) = Some (h', memo') ->
  h0 `prefix_of` h'.
Proof.
  intros Hrec. revert h memo.
  induction items as [|[key a] items IH]; intros h memo Hp Hy; simpl.
  { by intros [= <- <-]. }
  destruct (rec a (h, memo)) as [[a' [h1 memo1]]|] eqn:Ha; [|done].
  apply IH; [|done]. apply dict_setitem_prefix; [|done].
  etrans; [done |]. by eapply Hrec.
Qed.

(** [copy.deepcopy] writes to the objects that it creates only. *)
Lemma deepcopy_prefix depth x h memo x' h' memo' :
  deepcopy depth x (h, memo) = Some (x', (h', memo')) -> h `prefix_of` h'.
Proof.
  revert x h memo x' h' memo'.
  induction depth as [|depth IH]; intros x h memo x' h' memo'.
  - destruct x as [| | | |l]; simpl; try by intros [= _ <- _].
    destruct (memo !! l); [by intros [= _ <- _] | done].
  - destruct x as [| | | |l]; simpl; try by intros [= _ <- _].
    destruct (memo !! l); [by intros [= _ <- _] |].
    destruct (h !! l) as [[items|items]|]; [| |done]; unfold alloc.
    + destruct (copy_list_items _ _ _ _) as [[h1 memo1]|] eqn:Hcopy; [|done].
      intros [= _ <- _].
      eapply (copy_list_items_prefix _ h); [apply IH | | | done];
        [by apply prefix_app_r | done].
    + destruct (copy_dict_items _ _ _ _) as [[h1 memo1]|] eqn:Hcopy; [|done].
      intros [= _ <- _].
      eapply (copy_dict_items_prefix _ h); [apply IH | | | done];
        [by apply prefix_app_r | done].
Qed.

(** What has been read off a store is read off every store that
    extends it. *)
Lemma read_param_prefix h h' x p :
  h `prefix_of` h' -> read_param h x = Some p -> read_param h' x = Some p.
Proof.
  intros Hp. unfold read_param. destruct x as [| | | |l]; try done.
  destruct (h !! l) as [o|] eqn:Hl; [|done].
  by rewrite (prefix_lookup_Some _ _ _ _ Hl Hp).
Qed.

Lemma read_tool_prefix h h' x t :
  h `prefix_of` h' -> read_tool h x = Some t -> read_tool h' x = Some t.
Proof.
  intros Hp. unfold read_tool, read_list. destruct x as [| | | |l]; try done.
  destruct (h !! l) as [o|] eqn:Hl; [|done].
  rewrite (prefix_lookup_Some _ _ _ _ Hl Hp).
  destruct o as [|[|[k1 [| | |n|]] [|[k2 [| | |d|]] [|[k3 [| | | |ps]] [|]]]]]; try done.
  destruct (h !! ps) as [[items|]|] eqn:Hps; try done.
  rewrite (prefix_lookup_Some _ _ _ _ Hps Hp).
  destruct (mapM (read_param h) items) as [params|] eqn:Hitems; [|done].
  assert (Hitems' : mapM (read_param h') items = Some params).
  { apply mapM_Some. apply mapM_Some in Hitems.
    eapply Forall2_impl; [done |]. intros y p. by apply read_param_prefix. }
  by rewrite Hitems'.
Qed.

Lemma read_tools_prefix h h' x ts :
  h `prefix_of` h' -> read_tools h x = Some ts -> read_tools h' x = Some ts.
Proof.
  intros Hp. unfold read_tools, read_list. destruct x as [| | | |l]; try done.
  destruct (h !! l) as [[items|]|] eqn:Hl; try done.
  rewrite (prefix_lookup_Some _ _ _ _ Hl Hp). intros Hitems.
  apply mapM_Some. apply mapM_Some in Hitems.
  eapply Forall2_impl; [done |]. intros y t. by apply read_tool_prefix.
Qed.

End copies.

Section get_tools_more.
Context `{Imports}.
Implicit Types (st : registry).

(** X8.  Whatever the store holds, a call of [get_tools] that returns has
    changed no hook and no object that was there: it has only created
    objects. *)
Theorem get_tools_creates_only st tools st' :
  get_tools st = Some (tools, st') ->
  _TOOL_HOOKS st' = _TOOL_HOOKS st
  /\ store st `prefix_of` store st'
  /\ forall ts, descriptions st = Some ts -> descriptions st' = Some ts.
Proof.
  unfold get_tools.
  destruct (deepcopy _ _ _) as [[x [h memo]]|] eqn:Hcopy; [|done].
  intros [= <- <-]. simpl. apply deepcopy_prefix in Hcopy.
  split_and!; [done | done |]. intros ts. by apply read_tools_prefix.
Qed.

(** X9.  Two calls of [get_tools] in a row return two different lists,
    neither of them [_TOOL_DESCRIPTIONS] itself, that read as the same
    descriptors. *)
Theorem get_tools_fresh_each_time st :
  reachable st ->
  exists tools st1 tools' st2 ts,
    get_tools st = Some (tools, st1)
    /\ get_tools st1 = Some (tools', st2)
    /\ tools <> tools'
    /\ tools <> VRef _TOOL_DESCRIPTIONS
    /\ tools' <> VRef _TOOL_DESCRIPTIONS
    /\ read_tools (store st2) tools = Some ts
    /\ read_tools (store st2) tools' = Some ts.
Proof.
  intros Hst. destruct (reachable_holds st Hst) as (tls & ts & Hholds).
  destruct (get_tools_holds st tls ts Hholds) as (ext & Hget & _ & Hread).
  set (st1 := {| _TOOL_HOOKS := _TOOL_HOOKS st; store := store st ++ ext |}) in *.
  assert (Hholds1 : holds_tools (store st1) _TOOL_DESCRIPTIONS tls ts).
  { eapply holds_tools_prefix; [done |]. by apply prefix_app_r. }
  destruct (get_tools_holds st1 tls ts Hholds1) as (ext1 & Hget1 & _ & Hread1).
  pose proof Hholds as (Hroot & _). apply lookup_lt_Some in Hroot.
  assert (Hext : ext <> []).
  { intros ->. rewrite app_nil_r in Hread. unfold read_tools, read_list in Hread.
    by rewrite lookup_ge_None_2 in Hread. }
  exists (VRef (length (store st))), st1, (VRef (length (store st1))),
    {| _TOOL_HOOKS := _TOOL_HOOKS st1; store := store st1 ++ ext1 |}, ts.
  split_and!; [done | done | | | | | done].
  - simpl. rewrite length_app. intros [= Hlen]. destruct ext; [done | simpl in Hlen; lia].
  - unfold _TOOL_DESCRIPTIONS in *. intros [= Hlen]. lia.
  - simpl. rewrite length_app. unfold _TOOL_DESCRIPTIONS in *. intros [= Hlen]. lia.
  - simpl. eapply read_tools_prefix; [|done]. by apply prefix_app_r.
Qed.

End get_tools_more.

(** ** The registered tools *)

Section tools.
Context `{Libraries}.
Implicit Types (st : registry) (code session_id : string) (w : World).

Lemma call_error_class fname names kwargs e :
  call_error fname names kwargs = Some e -> exc_type e = TypeError.
Proof.
  unfold call_error. destruct (unexpected_keyword names kwargs); [by intros [= <-] |].
  destruct (missing_arguments names kwargs) as [|a [|b ms]]; [done | |];
    by intros [= <-].
Qed.

Lemma of_json_not_tuple x items : of_json x <> PTuple items.
Proof. by destruct x. Qed.

Lemma argument_not_tuple name kwargs items : argument name kwargs <> PTuple items.
Proof.
  unfold argument. destruct (kw_get name kwargs); [apply of_json_not_tuple | done].
Qed.

(** X10.  [random_number_generator] returns a number only when the seed is an
    [int] and the range is a tuple of exactly two [int]s for which
    [randint] returns; it leaves the world alone. *)
Theorem random_number_generator_returns seed range w w' ret :
  random_number_generator_body seed range w = (w', Return ret)
  <-> isinstance_int seed = true
      /\ w' = w
      /\ exists a b n,
           range = PTuple [a; b]
           /\ isinstance_int a = true /\ isinstance_int b = true
           /\ randint (int_value seed) (int_value a) (int_value b) = Return n
           /\ ret = PInt n.
Proof.
  unfold random_number_generator_body. split.
  - destruct (isinstance_int seed); [|done]. simpl.
    destruct range as [| | | | | |items|]; try done.
    destruct items as [|a [|b [|c items]]]; simpl; try done.
    + destruct (isinstance_int a); done.
    + destruct (isinstance_int a) eqn:Ha; [|done]. simpl.
      destruct (isinstance_int b) eqn:Hb; [|done]. simpl.
      destruct (randint _ _ _) as [n|e] eqn:Hr; [|done].
      intros [= <- <-]. split_and!; [done | done |]. by exists a, b, n.
    + destruct (isinstance_int a); [|done]. simpl.
      destruct (isinstance_int b); done.
  - intros (-> & -> & a & b & n & -> & Ha & Hb & Hr & ->). simpl.
    by rewrite Ha, Hb, Hr.
Qed.

(** X11.  [dispatch_tool] cannot run [random_number_generator]: a decoded
    payload holds no tuple, so whenever [json.loads] returns on the
    cleaned payload the call ends in a [TypeError], reported as a
    [system_error] observation.  Hence, whatever the payload, what the
    dispatch returns is one [system_error] observation, never a number,
    and the world is as it was. *)
Theorem random_number_generator_not_dispatchable st code session_id w :
  _TOOL_HOOKS st !! "random_number_generator" = Some random_number_generator_tool ->
  (forall params,
     json_loads (clean code) = Return params ->
     exists e,
       exc_type e = TypeError
       /\ dispatch_tool st "random_number_generator" code session_id w
          = (w, Return [new_ToolObservation "system_error" (format_exc e)]))
  /\ (forall w' observations,
        dispatch_tool st "random_number_generator" code session_id w
        = (w', Return observations) ->
        w' = w
        /\ exists text, observations = [new_ToolObservation "system_error" text]).
Proof.
  intros Hhook.
  assert (Hbody : forall kwargs, exists e,
    exc_type e = TypeError
    /\ call2 "random_number_generator" "seed" "range" random_number_generator_body kwargs w
       = (w, Raise e)).
  { intros kwargs. unfold call2.
    destruct (call_error _ _ kwargs) as [e|] eqn:Herr.
    { exists e. split; [by eapply call_error_class | done]. }
    unfold random_number_generator_body.
    destruct (isinstance_int (argument "seed" kwargs)); simpl;
      [|eexists; split; [|reflexivity]; reflexivity].
    pose proof (argument_not_tuple "range" kwargs) as Hrange.
    destruct (argument "range" kwargs);
      try (eexists; split; [|reflexivity]; reflexivity).
    by destruct (Hrange items). }
  assert (Hparsed : forall params,
    json_loads (clean code) = Return params ->
    exists e,
      exc_type e = TypeError
      /\ dispatch_tool st "random_number_generator" code session_id w
         = (w, Return [new_ToolObservation "system_error" (format_exc e)])).
  { intros params Hloads. unfold dispatch_tool, dispatch_custom.
    rewrite ALL_TOOLS_lookup, Hloads, Hhook. simpl.
    destruct params as [| | | | | |kwargs];
      try (eexists; split; [|reflexivity]; reflexivity).
    destruct (Hbody kwargs) as (e & Hcls & Hcall). simpl. rewrite Hcall.
    exists e. by rewrite Hcls. }
  split; [done |]. intros w' observations.
  destruct (json_loads (clean code)) as [params|e] eqn:Hloads.
  - destruct (Hparsed params eq_refl) as (e & _ & ->).
    intros [= <- <-]. split; [done | by eexists].
  - unfold dispatch_tool, dispatch_custom. rewrite ALL_TOOLS_lookup, Hloads. simpl.
    destruct (issubclass_JSONDecodeError (exc_type e)); [|done].
    intros [= <- <-]. split; [done | by eexists].
Qed.

(** X12.  [get_shell] through [dispatch_tool]: once the command has run, the
    observation is named [get_shell] and carries the standard output of
    a command that exited with status 0 and the standard error of any
    other; the other stream is dropped, and a failed command is not a
    [system_error].  A command that could not be run at all is one. *)
Theorem get_shell_dispatch st code session_id w query w' outcome :
  _TOOL_HOOKS st !! "get_shell" = Some get_shell_tool ->
  json_loads (clean code) = Return (JObject [("query", JString query)]) ->
  subprocess_run query w = (w', outcome) ->
  dispatch_tool st "get_shell" code session_id w
  = match outcome with
    | Return process =>
        (w', Return [new_ToolObservation "get_shell"
                       (if (returncode process =? 0)%Z then stdout process
                        else stderr process)])
    | Raise e =>
        if issubclass_Exception (exc_type e)
        then (w', Return [new_ToolObservation "system_error" (format_exc e)])
        else (w', Raise e)
    end.
Proof.
  intros Hhook Hloads Hrun. unfold dispatch_tool, dispatch_custom.
  rewrite ALL_TOOLS_lookup, Hloads, Hhook. simpl.
  unfold call1, call_error. simpl.
  unfold argument. simpl. unfold run_checked. rewrite Hrun.
  destruct outcome as [process|e]; [|done].
  by destruct (returncode process =? 0)%Z.
Qed.

(** X13.  [get_shell] checks the type of its argument before anything else:
    for a query that is not a string the dispatch reports a [TypeError]
    and no process has been started. *)
Theorem get_shell_query_checked st code session_id w x :
  _TOOL_HOOKS st !! "get_shell" = Some get_shell_tool ->
  json_loads (clean code) = Return (JObject [("query", x)]) ->
  (forall s, x <> JString s) ->
  dispatch_tool st "get_shell" code session_id w
  = (w, Return [new_ToolObservation "system_error"
                  (format_exc (Exc TypeError "Command must be a string"))]).
Proof.
  intros Hhook Hloads Hx. unfold dispatch_tool, dispatch_custom.
  rewrite ALL_TOOLS_lookup, Hloads, Hhook. simpl.
  unfold call1, call_error. simpl.
  unfold argument. simpl. destruct x; try done. by destruct (Hx s).
Qed.





(** X14.  What [get_weather] keeps of a response: the five fields of the
    first entry of [current_condition], in the order of
    [key_selection], under the one key [current_condition]; a response
    without one of them has no selection. *)
Theorem get_weather_selection resp items :
  select_keys resp key_selection = Return items
  <-> exists entries entry x1 x2 x3 x4 x5,
        getitem_str resp "current_condition" = Return entries
        /\ getitem_0 entries = Return entry
        /\ getitem_str entry "temp_C" = Return x1
        /\ getitem_str entry "FeelsLikeC" = Return x2
        /\ getitem_str entry "humidity" = Return x3
        /\ getitem_str entry "weatherDesc" = Return x4
        /\ getitem_str entry "observation_time" = Return x5
        /\ items = [("current_condition",
                     PDict [("temp_C", x1); ("FeelsLikeC", x2); ("humidity", x3);
                            ("weatherDesc", x4); ("observation_time", x5)])].
Proof.
  unfold key_selection. cbn [select_keys select_fields]. split.
  - destruct (getitem_str resp "current_condition") as [entries|] eqn:Hsel0; [|done].
    destruct (getitem_0 entries) as [entry|] eqn:Hsel1; [|done].
    destruct (getitem_str entry "temp_C") as [x1|] eqn:Hsel2; [|done].
    destruct (getitem_str entry "FeelsLikeC") as [x2|] eqn:Hsel3; [|done].
    destruct (getitem_str entry "humidity") as [x3|] eqn:Hsel4; [|done].
    destruct (getitem_str entry "weatherDesc") as [x4|] eqn:Hsel5; [|done].
    destruct (getitem_str entry "observation_time") as [x5|] eqn:Hsel6; [|done].
    intros [= <-]. by exists entries, entry, x1, x2, x3, x4, x5.
  - intros (entries & entry & x1 & x2 & x3 & x4 & x5
            & -> & -> & -> & -> & -> & -> & -> & ->). done.
Qed.

#[local] Arguments select_keys : simpl never.


(** X16.  A city name that is not a string is a [TypeError], reported before
    any request is made. *)
Theorem get_weather_city_checked st code session_id w x :
  _TOOL_HOOKS st !! "get_weather" = Some get_weather_tool ->
  json_loads (clean code) = Return (JObject [("city_name", x)]) ->
  (forall s, x <> JString s) ->
  dispatch_tool st "get_weather" code session_id w
  = (w, Return [new_ToolObservation "system_error"
                  (format_exc (Exc TypeError "City name must be a string"))]).
Proof.
  intros Hhook Hloads Hx. unfold dispatch_tool, dispatch_custom.
  rewrite ALL_TOOLS_lookup, Hloads, Hhook. simpl.
  unfold call1, call_error. simpl.
  unfold argument. simpl. destruct x; try done. by destruct (Hx s).
Qed.

End tools.

(** ** The text extractors *)

Section extractors.
Import Utils.
#[local] Arguments String.append : simpl nomatch.

Lemma join_app sep ps qs :
  ps <> [] -> qs <> [] ->
  join sep (ps ++ qs) = join sep ps +:+ sep +:+ join sep qs.
Proof.
  intros Hps Hqs. induction ps as [|p [|p' ps] IH]; [done | |].
  - destruct qs; [done |]. reflexivity.
  - change (join sep ((p :: p' :: ps) ++ qs))
      with (p +:+ sep +:+ join sep ((p' :: ps) ++ qs)).
    rewrite IH by done.
    change (join sep (p :: p' :: ps)) with (p +:+ sep +:+ join sep (p' :: ps)).
    by rewrite !app_assoc_s.
Qed.

(** X17.  Pages and paragraphs are separated, not terminated, by a blank
    line: the text of two documents, one after the other, is their
    texts with one separator between them, and a single page or
    paragraph is its own text. *)
Theorem extract_docx_app ps qs :
  ps <> [] -> qs <> [] ->
  extract_docx (ps ++ qs) = extract_docx ps +:+ newline +:+ newline +:+ extract_docx qs
  /\ extract_pdf (ps ++ qs) = extract_pdf ps +:+ newline +:+ newline +:+ extract_pdf qs.
Proof.
  intros Hps Hqs. unfold extract_docx, extract_pdf.
  rewrite join_app by done. by rewrite !app_assoc_s.
Qed.

(** The text of the shapes of one slide, added to [text]. *)
Lemma slide_text text shapes :
  foldl (fun text shape =>
           match shape with
           | Some shape_text => text +:+ shape_text +:+ newline
           | None => text
           end) text shapes
  = text +:+ extract_pptx [shapes].
Proof.
  unfold extract_pptx. simpl. revert text.
  induction shapes as [|[s|] shapes IH] using rev_ind; intros text.
  - simpl. by rewrite app_empty_r.
  - rewrite !foldl_app. simpl. rewrite IH. by rewrite !app_assoc_s.
  - rewrite !foldl_app. simpl. apply IH.
Qed.

Lemma extract_pptx_from text slides :
  foldl (fun text shapes =>
           foldl (fun text shape =>
                    match shape with
                    | Some shape_text => text +:+ shape_text +:+ newline
                    | None => text
                    end) text shapes) text slides
  = text +:+ extract_pptx slides.
Proof.
  unfold extract_pptx. revert text.
  induction slides as [|shapes slides IH] using rev_ind; intros text.
  - simpl. by rewrite app_empty_r.
  - rewrite !foldl_app. simpl. rewrite !slide_text, IH. by rewrite !app_assoc_s.
Qed.

Lemma extract_pptx_app slides slides' :
  extract_pptx (slides ++ slides') = extract_pptx slides +:+ extract_pptx slides'.
Proof.
  unfold extract_pptx at 1. rewrite foldl_app.
  fold (extract_pptx slides). apply extract_pptx_from.
Qed.

Lemma extract_pptx_shapes shapes shapes' :
  extract_pptx [shapes ++ shapes']
  = extract_pptx [shapes] +:+ extract_pptx [shapes'].
Proof.
  unfold extract_pptx at 1. cbn [foldl]. rewrite foldl_app.
  rewrite (slide_text _ shapes'). reflexivity.
Qed.

Lemma extract_pptx_join slides :
  extract_pptx slides = extract_pptx [mjoin slides].
Proof.
  induction slides as [|shapes slides IH]; [done |].
  change (shapes :: slides) with ([shapes] ++ slides).
  rewrite extract_pptx_app, IH.
  change (mjoin ([shapes] ++ slides)) with (shapes ++ mjoin slides).
  by rewrite extract_pptx_shapes.
Qed.

Lemma extract_pptx_with_text shapes :
  extract_pptx [filter (fun shape => is_Some shape) shapes] = extract_pptx [shapes].
Proof.
  induction shapes as [|[s|] shapes IH]; [done | |].
  - rewrite filter_cons_True by by eexists.
    change (Some s :: shapes) with ([Some s] ++ shapes).
    change (Some s :: filter (fun shape => is_Some shape) shapes)
      with ([Some s] ++ filter (fun shape => is_Some shape) shapes).
    by rewrite !extract_pptx_shapes, IH.
  - rewrite filter_cons_False by (intros [? ?]; done).
    change (None :: shapes) with ([None] ++ shapes).
    by rewrite extract_pptx_shapes, IH.
Qed.

(** X18.  [extract_pptx] leaves no trace of where a slide ends or of a shape
    without text: the text of a deck is that of its slides put
    together, that of its shapes on one slide, and that of its shapes
    with text alone. *)
Theorem extract_pptx_flat slides slides' :
  extract_pptx (slides ++ slides') = extract_pptx slides +:+ extract_pptx slides'
  /\ extract_pptx slides = extract_pptx [mjoin slides]
  /\ extract_pptx slides
     = extract_pptx [filter (fun shape => is_Some shape) (mjoin slides)].
Proof.
  split_and!.
  - apply extract_pptx_app.
  - apply extract_pptx_join.
  - by rewrite extract_pptx_with_text, <- extract_pptx_join.
Qed.

End extractors.

(** ** The module once imported *)

Section module.
Context `{Libraries}.

Lemma module_registry_hooks :
  _TOOL_HOOKS module_registry !! "random_number_generator"
  = Some random_number_generator_tool
  /\ _TOOL_HOOKS module_registry !! "get_weather" = Some get_weather_tool
  /\ _TOOL_HOOKS module_registry !! "get_shell" = Some get_shell_tool.
Proof.
  unfold module_registry, random_number_generator_tool, get_weather_tool, get_shell_tool.
  generalize (call2 "random_number_generator" "seed" "range" random_number_generator_body),
    (call1 "get_weather" "city_name" get_weather_body),
    (call1 "get_shell" "query" get_shell_body).
  intros body1 body2 body3. split_and!; vm_compute; reflexivity.
Qed.

(** X19.  The three decorated functions pass the checks of [register_tool]:
    the import registers them in the order of the file, under their own
    names, every parameter required, with [str(typ)] as the type of the
    parameter annotated with [tuple[int, int]]; the three names are the
    only ones with a hook. *)
Theorem module_tools_listed :
  descriptions module_registry
  = Some [ {| tool_name := "random_number_generator";
              tool_description :=
                "Generates a random number x, s.t. range[0] <= x < range[1]";
              tool_params :=
                [ {| param_name := "seed";
                     param_description := "The random seed used by the generator";
                     param_type := "int"; param_required := true |};
                  {| param_name := "range";
                     param_description := "The range of the generated numbers";
                     param_type := "tuple[int, int]"; param_required := true |} ] |};
           {| tool_name := "get_weather";
              tool_description := "Get the current weather for `city_name`";
              tool_params :=
                [ {| param_name := "city_name";
                     param_description := "The name of the city to be queried";
                     param_type := "str"; param_required := true |} ] |};
           {| tool_name := "get_shell";
              tool_description := "Use shell to run command";
              tool_params :=
                [ {| param_name := "query";
                     param_description := "The command should run in Linux shell";
                     param_type := "str"; param_required := true |} ] |} ]
  /\ _TOOL_HOOKS module_registry
     = {[ "random_number_generator" := random_number_generator_tool;
          "get_weather" := get_weather_tool;
          "get_shell" := get_shell_tool ]}.
Proof.
  unfold module_registry, random_number_generator_tool, get_weather_tool, get_shell_tool.
  generalize (call2 "random_number_generator" "seed" "range" random_number_generator_body),
    (call1 "get_weather" "city_name" get_weather_body),
    (call1 "get_shell" "query" get_shell_body).
  intros body1 body2 body3. split; vm_compute; reflexivity.
Qed.

End module.

(** ** The registered tools at work *)

Section instances_more.
#[local] Existing Instance Demo.imports.

Lemma reachable_with_add : reachable Demo.with_add.
Proof. apply reachable_register_all, reachable_register_all, reachable_empty. Qed.

Lemma dispatch_custom_one_observation_witness :
  ALL_TOOLS !! "failing" = None
  /\ dispatch_tool Demo.with_add "failing" "{}" "s1" 0
     = (1, Return [new_ToolObservation "system_error"
                     (format_exc (Exc ValueError "bad value"))])
  /\ exists content text,
       [new_ToolObservation "system_error" (format_exc (Exc ValueError "bad value"))]
       = [MkToolObservation content text None None None]
       /\ (content = "failing" \/ content = "system_error").
Proof.
  split_and!; [reflexivity | by vm_compute |].
  apply (dispatch_custom_one_observation Demo.with_add "failing" "{}" "s1" 0 1);
    [reflexivity | by vm_compute].
Defined.

Lemma dispatch_custom_raises_witness :
  ALL_TOOLS !! "quit" = None
  /\ dispatch_tool Demo.with_add "quit" "{}" "s1" 0 = (1, Raise (Exc SystemExit ""))
  /\ ((json_loads (clean "{}") = Raise (Exc SystemExit "")
       /\ issubclass_JSONDecodeError (exc_type (Exc SystemExit "")) = false /\ 1 = 0)
      \/ (exists tool_hook kwargs,
            json_loads (clean "{}") = Return (JObject kwargs)
            /\ _TOOL_HOOKS Demo.with_add !! "quit" = Some tool_hook
            /\ call tool_hook kwargs 0 = (1, Raise (Exc SystemExit ""))
            /\ issubclass_Exception (exc_type (Exc SystemExit "")) = false)).
Proof.
  split_and!; [reflexivity | by vm_compute |].
  apply (dispatch_custom_raises Demo.with_add "quit" "{}" "s1" 0 1 (Exc SystemExit ""));
    [reflexivity | by vm_compute].
Defined.

Lemma register_then_dispatch_witness :
  (register_tool Demo.add Demo.imported).2 = Return Demo.add
  /\ ALL_TOOLS !! __name__ Demo.add = None
  /\ json_loads (clean (Demo.object_text "a" "2" "b" "3"))
     = Return (JObject [("a", JInt 2); ("b", JInt 3)])
  /\ dispatch_tool (register_tool Demo.add Demo.imported).1 (__name__ Demo.add)
       (Demo.object_text "a" "2" "b" "3") "s1" 0
     = (1, Return [new_ToolObservation "add" "5"]).
Proof.
  split_and!; [by vm_compute | reflexivity | by vm_compute |].
  apply (register_then_dispatch Demo.add Demo.imported
           (Demo.object_text "a" "2" "b" "3") "s1" 0 [("a", JInt 2); ("b", JInt 3)]);
    [by vm_compute | reflexivity | by vm_compute].
Defined.

Lemma dispatch_padding_witness :
  ALL_TOOLS !! "add" = None
  /\ PyStr.all_chars PyStr.isspace " " = true
  /\ PyStr.all_chars PyStr.isspace (newline +:+ " ") = true
  /\ dispatch_tool Demo.with_add "add"
       (" " +:+ Demo.object_text "a" "2" "b" "3" +:+ newline +:+ " ") "s1" 0
     = dispatch_tool Demo.with_add "add" (Demo.object_text "a" "2" "b" "3") "s1" 0.
Proof.
  split_and!; [reflexivity | reflexivity | reflexivity |].
  apply (dispatch_padding Demo.with_add "add" (Demo.object_text "a" "2" "b" "3") "s1" 0
           " " (newline +:+ " ")); reflexivity.
Defined.

Lemma register_tool_first_error_witness :
  getdoc Demo.unannotated = Some "Second parameter is bare."
  /\ parameters Demo.unannotated
     = [("a", Annotated (Class_ "int") [VStr "first"; VBool true])]
       ++ ("b", Parameter_empty) :: []
  /\ Forall (fun item => is_Some (param_descriptor_of item))
       [("a", Annotated (Class_ "int") [VStr "first"; VBool true])]
  /\ param_entry "b" Parameter_empty
     = Raise (Exc TypeError "Parameter `b` missing type annotation")
  /\ (register_tool Demo.unannotated Demo.imported).2
     = Raise (Exc TypeError "Parameter `b` missing type annotation").
Proof.
  assert (Hgood : Forall (fun item => is_Some (param_descriptor_of item))
                    [("a", Annotated (Class_ "int") [VStr "first"; VBool true])]).
  { constructor; [by eexists | constructor]. }
  split_and!; [reflexivity | reflexivity | done | reflexivity |].
  apply (register_tool_first_error Demo.unannotated Demo.imported
           "Second parameter is bare."
           [("a", Annotated (Class_ "int") [VStr "first"; VBool true])]
           "b" Parameter_empty []); [reflexivity | reflexivity | done | reflexivity].
Defined.

Lemma hooks_agree_with_listing_witness :
  reachable Demo.with_add
  /\ exists ts,
       descriptions Demo.with_add = Some ts
       /\ forall name,
            match _TOOL_HOOKS Demo.with_add !! name with
            | Some func =>
                __name__ func = name
                /\ exists t, descriptor_of func = Some t
                            /\ last (filter (fun t => tool_name t = name) ts) = Some t
            | None => name ∉ tool_name <$> ts
            end.
Proof.
  split; [apply reachable_with_add |].
  exact (hooks_agree_with_listing Demo.with_add reachable_with_add).
Defined.

Lemma get_tools_creates_only_witness :
  match get_tools Demo.with_add with
  | Some (tools, st') =>
      get_tools Demo.with_add = Some (tools, st')
      /\ _TOOL_HOOKS st' = _TOOL_HOOKS Demo.with_add
      /\ store Demo.with_add `prefix_of` store st'
      /\ forall ts, descriptions Demo.with_add = Some ts -> descriptions st' = Some ts
  | None => False
  end.
Proof.
  destruct (get_tools Demo.with_add) as [[tools st']|] eqn:Hget.
  - split; [reflexivity |]. exact (get_tools_creates_only Demo.with_add tools st' Hget).
  - by vm_compute in Hget.
Defined.

Lemma get_tools_fresh_each_time_witness :
  reachable Demo.with_add
  /\ exists tools st1 tools' st2 ts,
       get_tools Demo.with_add = Some (tools, st1)
       /\ get_tools st1 = Some (tools', st2)
       /\ tools <> tools'
       /\ tools <> VRef _TOOL_DESCRIPTIONS
       /\ tools' <> VRef _TOOL_DESCRIPTIONS
       /\ read_tools (store st2) tools = Some ts
       /\ read_tools (store st2) tools' = Some ts.
Proof.
  split; [apply reachable_with_add |].
  exact (get_tools_fresh_each_time Demo.with_add reachable_with_add).
Defined.

End instances_more.

Section tools_at_work.
#[local] Existing Instance DemoTools.imports.
#[local] Existing Instance DemoTools.libraries.

Lemma random_number_generator_not_dispatchable_witness :
  _TOOL_HOOKS DemoTools.imported !! "random_number_generator"
  = Some random_number_generator_tool
  /\ json_loads (clean DemoTools.range_text)
     = Return (JObject [("seed", JInt 1); ("range", JArray [JInt 1; JInt 6])])
  /\ (exists e,
        exc_type e = TypeError
        /\ dispatch_tool DemoTools.imported "random_number_generator"
             DemoTools.range_text "s1" 0
           = (0, Return [new_ToolObservation "system_error" (format_exc e)]))
  /\ forall w' observations,
       dispatch_tool DemoTools.imported "random_number_generator"
         DemoTools.range_text "s1" 0
       = (w', Return observations) ->
       w' = 0 /\ exists text, observations = [new_ToolObservation "system_error" text].
Proof.
  split_and!; [apply module_registry_hooks | by vm_compute | |].
  - apply (proj1 (random_number_generator_not_dispatchable DemoTools.imported
                    DemoTools.range_text "s1" 0 (proj1 module_registry_hooks))
             (JObject [("seed", JInt 1); ("range", JArray [JInt 1; JInt 6])])).
    by vm_compute.
  - exact (proj2 (random_number_generator_not_dispatchable DemoTools.imported
                    DemoTools.range_text "s1" 0 (proj1 module_registry_hooks))).
Defined.

Lemma get_shell_dispatch_witness :
  _TOOL_HOOKS DemoTools.imported !! "get_shell" = Some get_shell_tool
  /\ json_loads (clean (DemoTools.object_text "query" (DemoTools.quoted "pwd")))
     = Return (JObject [("query", JString "pwd")])
  /\ subprocess_run "pwd" 0
     = (1, Return {| returncode := 0; stdout := "/root"; stderr := "" |})
  /\ dispatch_tool DemoTools.imported "get_shell"
       (DemoTools.object_text "query" (DemoTools.quoted "pwd")) "s1" 0
     = (1, Return [new_ToolObservation "get_shell" "/root"]).
Proof.
  split_and!; [apply module_registry_hooks | by vm_compute | reflexivity |].
  apply (get_shell_dispatch DemoTools.imported
           (DemoTools.object_text "query" (DemoTools.quoted "pwd")) "s1" 0 "pwd" 1
           (Return {| returncode := 0; stdout := "/root"; stderr := "" |}));
    [apply module_registry_hooks | by vm_compute | reflexivity].
Defined.

Lemma get_shell_query_checked_witness :
  _TOOL_HOOKS DemoTools.imported !! "get_shell" = Some get_shell_tool
  /\ json_loads (clean (DemoTools.object_text "query" "5"))
     = Return (JObject [("query", JInt 5)])
  /\ (forall s, JInt 5 <> JString s)
  /\ dispatch_tool DemoTools.imported "get_shell"
       (DemoTools.object_text "query" "5") "s1" 0
     = (0, Return [new_ToolObservation "system_error"
                     (format_exc (Exc TypeError "Command must be a string"))]).
Proof.
  split_and!; [apply module_registry_hooks | by vm_compute | done |].
  apply (get_shell_query_checked DemoTools.imported
           (DemoTools.object_text "query" "5") "s1" 0 (JInt 5));
    [apply module_registry_hooks | by vm_compute | done].
Defined.


Lemma get_weather_city_checked_witness :
  _TOOL_HOOKS DemoTools.imported !! "get_weather" = Some get_weather_tool
  /\ json_loads (clean (DemoTools.object_text "city_name" "5"))
     = Return (JObject [("city_name", JInt 5)])
  /\ (forall s, JInt 5 <> JString s)
  /\ dispatch_tool DemoTools.imported "get_weather"
       (DemoTools.object_text "city_name" "5") "s1" 0
     = (0, Return [new_ToolObservation "system_error"
                     (format_exc (Exc TypeError "City name must be a string"))]).
Proof.
  split_and!; [apply module_registry_hooks | by vm_compute | done |].
  apply (get_weather_city_checked DemoTools.imported
           (DemoTools.object_text "city_name" "5") "s1" 0 (JInt 5));
    [apply module_registry_hooks | by vm_compute | done].
Defined.

Lemma extract_docx_app_witness :
  ["Title"] <> [] /\ ["first"; "second"] <> []
  /\ Utils.extract_docx (["Title"] ++ ["first"; "second"])
     = Utils.extract_docx ["Title"] +:+ newline +:+ newline
       +:+ Utils.extract_docx ["first"; "second"]
  /\ Utils.extract_pdf (["Title"] ++ ["first"; "second"])
     = Utils.extract_pdf ["Title"] +:+ newline +:+ newline
       +:+ Utils.extract_pdf ["first"; "second"].
Proof.
  split; [done |]. split; [done |].
  apply (extract_docx_app ["Title"] ["first"; "second"]); done.
Defined.

(** The tools of the module, run. *)
Example dispatch_get_shell_failed :
  dispatch_tool DemoTools.imported "get_shell"
    (DemoTools.object_text "query" (DemoTools.quoted "false")) "s1" 0
  = (1, Return [new_ToolObservation "get_shell" "command failed: false"]).
Proof. by vm_compute. Qed.

Example random_number_generator_called :
  random_number_generator_body (PInt 1) (PTuple [PInt 1; PInt 6]) 0
  = (0, Return (PInt 1)).
Proof. by vm_compute. Qed.

Example extract_pptx_two_slides :
  Utils.extract_pptx [[Some "Title"; None]; [Some "first"; Some "second"]]
  = "Title" +:+ newline +:+ "first" +:+ newline +:+ "second" +:+ newline.
Proof. by vm_compute. Qed.

End tools_at_work.

(** ** Payloads that are literals or long integers *)

Section payloads.
#[local] Existing Instance DemoJson.imports.

(** An integer of 4301 digits is JSON, but [json.loads] raises the
    [ValueError] of [int] on it, which is no [JSONDecodeError]: the
    dispatch raises, be the tool registered or not. *)
Lemma dispatch_raises_ValueError :
  let e := Exc ValueError
             "Exceeds the limit (4300 digits) for integer string conversion: value has 4301 digits; use sys.set_int_max_str_digits() to increase the limit" in
  ALL_TOOLS !! "echo_tool" = None
  /\ _TOOL_HOOKS DemoJson.with_echo !! "echo_tool" = Some DemoJson.echo_tool
  /\ json_loads (PyStr.strip (DemoJson.ones 4301)) = Raise e
  /\ json_loads (clean (DemoJson.ones 4301)) = Raise e
  /\ issubclass_JSONDecodeError (exc_type e) = false
  /\ dispatch_tool DemoJson.with_echo "echo_tool" (DemoJson.ones 4301) "s1" 0
     = (0, Raise e)
  /\ forall w' observations,
       dispatch_tool DemoJson.with_echo "echo_tool" (DemoJson.ones 4301) "s1" 0
       <> (w', Return observations).
Proof.
  intros e.
  assert (Hd : dispatch_tool DemoJson.with_echo "echo_tool" (DemoJson.ones 4301) "s1" 0
               = (0, Raise e)) by (vm_compute; reflexivity).
  split_and!; [vm_compute; reflexivity | vm_compute; reflexivity
              | vm_compute; reflexivity | vm_compute; reflexivity
              | vm_compute; reflexivity | exact Hd |].
  intros w' observations. rewrite Hd. discriminate.
Qed.


(** The same payloads where the theorems apply: a short integer is
    not found, a long one raises. *)
Example dispatch_unknown_tool_integer :
  dispatch_tool DemoJson.with_echo "not_a_real_tool" " 42 " "s1" 0
  = (0, Return [new_ToolObservation "system_error"
                  "Tool `not_a_real_tool` not found. Please use a provided tool."]).
Proof. by vm_compute. Qed.

End payloads.
